(** * Text-classification microservice: model of [app/main.py] and [app/model.py]

    The development follows the two source files:

    - [app/main.py]: the request schemas ([TextInput], [BatchTextInput]) with
      their validators, and the endpoints [health_check], [predict_text],
      [predict_batch] and [get_model_info];
    - [app/model.py]: the class [TextClassificationModel] with [load_model],
      [_create_example_model], [predict], [predict_batch], [get_model_info].

    The scikit-learn pipeline, the file system and the pydantic field
    constraints are libraries outside the repository: the pipeline is a record
    of the three queries the code performs on it, the file system is the
    environment of one [load_model] call, and the field constraints are the
    checks that [Field(min_length=.., max_length=..)] and
    [Field(min_items=.., max_items=..)] stand for.

    Python floats are modelled by rationals ([Q]); the code only compares and
    copies them. Python [str] values that come from requests are sequences of
    Unicode code points; labels, dictionary keys and messages are [string]. *)

From Stdlib Require Import QArith Qabs Lqa.
From stdpp Require Import gmap strings list fin_maps.

Local Open Scope Z_scope.

(** ** Python values *)

(** A text: the code points of a Python [str]. *)
Abbreviation pystr := (list N).

(** [len(x)] *)
Definition len {A : Type} (l : list A) : Z := Z.of_nat (length l).

(** [not x] for a sequence. *)
Definition is_nil {A : Type} (l : list A) : bool :=
  match l with
  | [] => true
  | _ :: _ => false
  end.

(** The code points [str.isspace] accepts, which are the ones [str.strip()]
    removes. *)
Definition is_space (c : N) : bool :=
  (((9 <=? c) && (c <=? 13)) || ((28 <=? c) && (c <=? 32))
   || (c =? 133) || (c =? 160) || (c =? 5760)
   || ((8192 <=? c) && (c <=? 8202))
   || (c =? 8232) || (c =? 8233) || (c =? 8239) || (c =? 8287)
   || (c =? 12288))%N.

Fixpoint lstrip (s : pystr) : pystr :=
  match s with
  | [] => []
  | c :: rest => if is_space c then lstrip rest else s
  end.

Fixpoint rstrip (s : pystr) : pystr :=
  match s with
  | [] => []
  | c :: rest =>
      let kept := rstrip rest in
      if is_space c && is_nil kept then [] else c :: kept
  end.

(** [s.strip()] *)
Definition strip (s : pystr) : pystr := rstrip (lstrip s).

(** A text literal of ASCII characters. *)
Fixpoint text_of (s : string) : pystr :=
  match s with
  | EmptyString => []
  | String a rest => Ascii.N_of_ascii a :: text_of rest
  end.

(** ** Results of fallible code *)

Inductive res (E A : Type) : Type :=
| Err (e : E)
| Ok (a : A).
Arguments Err {E A} e.
Arguments Ok {E A} a.

Definition bind {E A B : Type} (m : res E A) (k : A -> res E B) : res E B :=
  match m with
  | Err e => Err e
  | Ok a => k a
  end.

Notation "'let*' x ':=' m 'in' k" := (bind m (fun x => k))
  (at level 10, x name, m at level 100, k at level 200).

Definition is_ok {E A : Type} (m : res E A) : bool :=
  match m with
  | Ok _ => true
  | Err _ => false
  end.

(** ** Request validation ([app/main.py]) *)

Module Validation.

(** What a rejected request reports: the constraint of a [Field] that failed,
    or the [ValueError] of a [@validator]. *)
Inductive validation_error : Type :=
| min_length_error (limit : Z)
| max_length_error (limit : Z)
| min_items_error (limit : Z)
| max_items_error (limit : Z)
| validator_error (msg : string).

(** [Field(..., min_length=.., max_length=..)] on a [str]. *)
Definition field_length (min_length max_length : Z) (v : pystr)
  : res validation_error pystr :=
  if len v <? min_length then Err (min_length_error min_length)
  else if max_length <? len v then Err (max_length_error max_length)
  else Ok v.

(** [Field(..., min_items=.., max_items=..)] on a [List]. *)
Definition field_items {A : Type} (min_items max_items : Z) (v : list A)
  : res validation_error (list A) :=
  if len v <? min_items then Err (min_items_error min_items)
  else if max_items <? len v then Err (max_items_error max_items)
  else Ok v.

Definition msg_text_empty : string := "El texto no puede estar vacío".
Definition msg_list_empty : string := "La lista de textos no puede estar vacía".
Definition msg_not_strings : string := "Todos los elementos deben ser strings".
Definition msg_item_empty : string := "Los textos no pueden estar vacíos".
Definition msg_item_too_long : string :=
  "Los textos no pueden exceder 5000 caracteres".

(** [TextInput.validate_text] *)
Definition validate_text (v : pystr) : res validation_error pystr :=
  if is_nil (strip v) then Err (validator_error msg_text_empty)
  else Ok (strip v).

(** The model [TextInput]: the field constraint runs on the received string,
    then the validator. The value is the [text] attribute of the instance. *)
Definition TextInput (text : pystr) : res validation_error pystr :=
  let* v := field_length 1 5000 text in
  validate_text v.

(** The body of the [for text in v] loop of [validate_texts]. The elements
    are [str] already (the field is a [List[str]]), so the [isinstance] test
    never raises [msg_not_strings]. *)
Definition validate_texts_item (text : pystr) : res validation_error pystr :=
  if is_nil (strip text) then Err (validator_error msg_item_empty)
  else if 5000 <? len text then Err (validator_error msg_item_too_long)
  else Ok (strip text).

(** A batch element that passes the body of the loop: not blank, and at most
    5000 characters before trimming. *)
Definition valid_item (t : pystr) : Prop := strip t <> [] /\ len t <= 5000.

Fixpoint validate_texts_loop (v cleaned_texts : list pystr)
  : res validation_error (list pystr) :=
  match v with
  | [] => Ok cleaned_texts
  | text :: rest =>
      let* cleaned := validate_texts_item text in
      validate_texts_loop rest (cleaned_texts ++ [cleaned])
  end.

(** [BatchTextInput.validate_texts] *)
Definition validate_texts (v : list pystr) : res validation_error (list pystr) :=
  if is_nil v then Err (validator_error msg_list_empty)
  else validate_texts_loop v [].

(** The model [BatchTextInput]; the value is the [texts] attribute. *)
Definition BatchTextInput (texts : list pystr)
  : res validation_error (list pystr) :=
  let* v := field_items 1 100 texts in
  validate_texts v.

End Validation.

(** ** The classifier ([app/model.py]) *)

Module Classifier.

(** Python exceptions, as far as the handlers tell them apart: the endpoints
    have one clause for [ValueError] and one for every other [Exception]. *)
Inductive pyexn : Type :=
| ValueError (msg : string)
| KeyError (key : Z)
| IndexError (msg : string)
| AttributeError (msg : string)
| OtherException (msg : string).

(** [isinstance(e, ValueError)] *)
Definition is_ValueError (e : pyexn) : bool :=
  match e with
  | ValueError _ => true
  | _ => false
  end.

(** What the code asks of the scikit-learn [Pipeline] held in [self.model]:
    - [self.model.predict(texts)], an array of class indices;
    - [self.model.predict_proba(texts)], an array with one row per text;
    - the [features] expression of [get_model_info]: [Ok (Some n)] when
      [named_steps['tfidf']] has [get_feature_names_out] and its result has
      [n] entries, [Ok None] when it has no such attribute, [Err] when the
      lookup or the call raises. *)
Record Pipeline : Type := {
  pipe_predict : list pystr -> res pyexn (list Z);
  pipe_predict_proba : list pystr -> res pyexn (list (list Q));
  pipe_tfidf_features : res pyexn (option Z)
}.

Record TextClassificationModel : Type := {
  model : option Pipeline;
  is_loaded : bool;
  model_path : string
}.

(** [TextClassificationModel.__init__] *)
Definition init : TextClassificationModel :=
  {| model := None; is_loaded := false;
     model_path := "/tmp/text_classifier.joblib" |}.

(** The outside world during one call of [load_model]. *)
Record LoadEnv : Type := {
  path_exists : string -> bool;                    (* os.path.exists *)
  joblib_load : string -> res pyexn Pipeline;      (* joblib.load *)
  new_pipeline : Pipeline;                         (* Pipeline([...]) *)
  fit_examples : Pipeline -> res pyexn Pipeline;   (* .fit(texts, labels) *)
  makedirs_dump : Pipeline -> string -> res pyexn unit
                                                   (* os.makedirs; joblib.dump *)
}.

(** [_create_example_model]: the state it leaves and whether it raised. *)
Definition _create_example_model (env : LoadEnv) (self : TextClassificationModel)
  : TextClassificationModel * res pyexn unit :=
  let self1 := {| model := Some (new_pipeline env);
                  is_loaded := is_loaded self;
                  model_path := model_path self |} in
  match fit_examples env (new_pipeline env) with
  | Err e => (self1, Err e)
  | Ok fitted =>
      let self2 := {| model := Some fitted;
                      is_loaded := is_loaded self;
                      model_path := model_path self |} in
      match makedirs_dump env fitted (model_path self) with
      | Err e => (self2, Err e)
      | Ok _ =>
          ({| model := Some fitted; is_loaded := true;
              model_path := model_path self |}, Ok tt)
      end
  end.

(** [load_model]: the state it leaves and the boolean it returns. *)
Definition load_model (env : LoadEnv) (self : TextClassificationModel)
  : TextClassificationModel * bool :=
  if path_exists env (model_path self) then
    match joblib_load env (model_path self) with
    | Ok loaded =>
        ({| model := Some loaded; is_loaded := true;
            model_path := model_path self |}, true)
    | Err _ => (self, false)
    end
  else
    match _create_example_model env self with
    | (self', Ok _) => (self', true)
    | (self', Err _) => (self', false)
    end.

Definition msg_not_loaded : string :=
  "Modelo no cargado. Llama a load_model() primero.".

(** [label_map = {0: "negativo", 1: "positivo"}] and [label_map[c]] *)
Definition label_map (c : Z) : res pyexn string :=
  if c =? 0 then Ok "negativo"
  else if c =? 1 then Ok "positivo"
  else Err (KeyError c).

(** [a[i]] for an index that is not negative. *)
Definition item {A : Type} (a : list A) (i : nat) : res pyexn A :=
  match a !! i with
  | Some x => Ok x
  | None => Err (IndexError "index out of bounds")
  end.

(** [x > y] on floats. *)
Definition gt (x y : Q) : bool := negb (Qle_bool x y).

Fixpoint max_from (best : Q) (rest : list Q) : Q :=
  match rest with
  | [] => best
  | x :: rest' => max_from (if gt x best then x else best) rest'
  end.

(** The builtin [max(row)]. *)
Definition max (row : list Q) : res pyexn Q :=
  match row with
  | [] => Err (ValueError "max() arg is an empty sequence")
  | x :: rest => Ok (max_from x rest)
  end.

(** The dictionary [predict] returns. *)
Record result : Type := {
  text : pystr;
  prediction : string;
  confidence : Q;
  probabilities : gmap string Q
}.

(** [predict] *)
Definition predict (self : TextClassificationModel) (text : pystr)
  : res pyexn result :=
  match is_loaded self, model self with
  | true, Some m =>
      let* predictions := pipe_predict m [text] in
      let* prediction := item predictions 0 in
      let* probas := pipe_predict_proba m [text] in
      let* probabilities := item probas 0 in
      let* predicted_label := label_map prediction in
      let* confidence := max probabilities in
      let* p0 := item probabilities 0 in
      let* p1 := item probabilities 1 in
      Ok {| text := text;
            prediction := predicted_label;
            confidence := confidence;
            probabilities := {[ "negativo" := p0; "positivo" := p1 ]} |}
  | _, _ => Err (ValueError msg_not_loaded)
  end.

(** The body of the [for i, text in enumerate(texts)] loop of
    [predict_batch]: the dictionary built for the text at index [i]. *)
Definition batch_result (predictions : list Z) (probabilities : list (list Q))
    (i : nat) (text : pystr) : res pyexn result :=
  let* prediction := item predictions i in
  let* predicted_label := label_map prediction in
  let* row := item probabilities i in
  let* confidence := max row in
  let* p0 := item row 0 in
  let* p1 := item row 1 in
  Ok {| text := text;
        prediction := predicted_label;
        confidence := confidence;
        probabilities := {[ "negativo" := p0; "positivo" := p1 ]} |}.

(** The loop itself: [i] is the index of the head of [texts], [results] the
    list appended to so far. An exception leaves the loop and the list with
    it. *)
Fixpoint predict_batch_loop (predictions : list Z) (probabilities : list (list Q))
    (i : nat) (texts : list pystr) (results : list result)
  : res pyexn (list result) :=
  match texts with
  | [] => Ok results
  | text :: rest =>
      let* r := batch_result predictions probabilities i text in
      predict_batch_loop predictions probabilities (S i) rest (results ++ [r])
  end.

(** [predict_batch] *)
Definition predict_batch (self : TextClassificationModel) (texts : list pystr)
  : res pyexn (list result) :=
  match is_loaded self, model self with
  | true, Some m =>
      let* predictions := pipe_predict m texts in
      let* probabilities := pipe_predict_proba m texts in
      predict_batch_loop predictions probabilities 0 texts []
  | _, _ => Err (ValueError msg_not_loaded)
  end.

(** The values of the dictionary [get_model_info] returns. *)
Inductive info_value : Type :=
| VStr (s : string)
| VInt (n : Z)
| VList (l : list string).

#[global] Instance info_value_eq_dec : EqDecision info_value.
Proof. solve_decision. Defined.

(** The dictionary of a loaded instance whose [features] entry is [v]. *)
Definition loaded_info (v : info_value) : gmap string info_value :=
  {[ "status" := VStr "loaded";
     "model_type" := VStr "TF-IDF + Logistic Regression";
     "features" := v;
     "classes" := VList ["negativo"; "positivo"] ]}.

(** [get_model_info] *)
Definition get_model_info (self : TextClassificationModel)
  : res pyexn (gmap string info_value) :=
  if negb (is_loaded self) then Ok {[ "status" := VStr "not_loaded" ]}
  else
    let* features :=
      match model self with
      | None => Err (AttributeError "'NoneType' object has no attribute 'named_steps'")
      | Some m =>
          let* n := pipe_tfidf_features m in
          Ok (match n with
              | Some k => VInt k
              | None => VStr "unknown"
              end)
      end in
    Ok (loaded_info features).

(** The methods of the instance, as calls on the shared [model_instance]. *)
Inductive method : Type :=
| LoadModel (env : LoadEnv)
| Predict (text : pystr)
| PredictBatch (texts : list pystr)
| GetModelInfo.

Inductive outcome : Type :=
| Loaded (success : bool)
| Predicted (r : res pyexn result)
| PredictedBatch (rs : res pyexn (list result))
| Info (info : res pyexn (gmap string info_value)).

(** One call: the instance afterwards and what the call gave. Only
    [load_model] assigns to the attributes. *)
Definition call (self : TextClassificationModel) (c : method)
  : TextClassificationModel * outcome :=
  match c with
  | LoadModel env => let (self', ok) := load_model env self in (self', Loaded ok)
  | Predict text => (self, Predicted (predict self text))
  | PredictBatch texts => (self, PredictedBatch (predict_batch self texts))
  | GetModelInfo => (self, Info (get_model_info self))
  end.

Fixpoint run (self : TextClassificationModel) (cs : list method)
  : TextClassificationModel * list outcome :=
  match cs with
  | [] => (self, [])
  | c :: rest =>
      let (self1, o) := call self c in
      let (self2, os) := run self1 rest in
      (self2, o :: os)
  end.

Definition is_load (c : method) : bool :=
  match c with
  | LoadModel _ => true
  | _ => false
  end.

End Classifier.

(** ** The endpoints ([app/main.py]) *)

Module Service.

Import Classifier.

(** What a request gets back: a 200 response with a body, an [HTTPException]
    raised by the endpoint, or the rejection of a body that does not pass its
    schema, which the framework answers before the endpoint runs. *)
Inductive http (A : Type) : Type :=
| Response (body : A)
| HTTPException (status_code : Z) (detail : string)
| RequestValidationError (e : Validation.validation_error).
Arguments Response {A} body.
Arguments HTTPException {A} status_code detail.
Arguments RequestValidationError {A} e.

Definition HTTP_400_BAD_REQUEST : Z := 400.
Definition HTTP_500_INTERNAL_SERVER_ERROR : Z := 500.
Definition HTTP_503_SERVICE_UNAVAILABLE : Z := 503.

Record PredictionResponse : Type := {
  resp_text : pystr;
  resp_prediction : string;
  resp_confidence : Q;
  resp_probabilities : gmap string Q
}.

Record BatchPredictionResponse : Type := {
  results : list PredictionResponse;
  total_processed : Z
}.

Record HealthResponse : Type := {
  status : string;
  model_loaded : bool;
  model_info : gmap string info_value
}.

(** [PredictionResponse(text=result["text"], ...)] *)
Definition to_response (r : result) : PredictionResponse :=
  {| resp_text := text r;
     resp_prediction := prediction r;
     resp_confidence := confidence r;
     resp_probabilities := probabilities r |}.

(** [health_check] *)
Definition health_check (model_instance : TextClassificationModel)
  : http HealthResponse :=
  match get_model_info model_instance with
  | Ok info =>
      let loaded := bool_decide (info !! "status" = Some (VStr "loaded")) in
      Response {| status := if loaded then "healthy" else "unhealthy";
                  model_loaded := loaded;
                  model_info := info |}
  | Err _ => HTTPException HTTP_503_SERVICE_UNAVAILABLE "Servicio no disponible"
  end.

(** The two [except] clauses that [predict_text] and [predict_batch] have in
    common: [except ValueError as e] answers 400 with [str(e)], the message
    of the error, and [except Exception] answers 500 with a fixed detail. *)
Definition handle {A : Type} (internal_detail : string) (e : pyexn) : http A :=
  match e with
  | ValueError msg => HTTPException HTTP_400_BAD_REQUEST msg
  | _ => HTTPException HTTP_500_INTERNAL_SERVER_ERROR internal_detail
  end.

(** [predict_text], on the [text] of a validated [TextInput]. *)
Definition predict_text (model_instance : TextClassificationModel)
    (input_text : pystr) : http PredictionResponse :=
  match predict model_instance input_text with
  | Ok r => Response (to_response r)
  | Err e => handle "Error interno al procesar la predicción" e
  end.

(** [predict_batch], on the [texts] of a validated [BatchTextInput]. *)
Definition predict_batch (model_instance : TextClassificationModel)
    (input_texts : list pystr) : http BatchPredictionResponse :=
  match Classifier.predict_batch model_instance input_texts with
  | Ok rs =>
      Response {| results := to_response <$> rs; total_processed := len rs |}
  | Err e => handle "Error interno al procesar la predicción en lote" e
  end.

(** [get_model_info] *)
Definition get_model_info (model_instance : TextClassificationModel)
  : http (gmap string info_value) :=
  match Classifier.get_model_info model_instance with
  | Ok info => Response info
  | Err _ =>
      HTTPException HTTP_500_INTERNAL_SERVER_ERROR
        "Error al obtener información del modelo"
  end.

(** [POST /predict] with body [{"text": raw}]: the body is parsed into a
    [TextInput], then [predict_text] runs. *)
Definition post_predict (model_instance : TextClassificationModel)
    (raw : pystr) : http PredictionResponse :=
  match Validation.TextInput raw with
  | Err e => RequestValidationError e
  | Ok input_text => predict_text model_instance input_text
  end.

(** [POST /predict/batch] with body [{"texts": raw}]. *)
Definition post_predict_batch (model_instance : TextClassificationModel)
    (raw : list pystr) : http BatchPredictionResponse :=
  match Validation.BatchTextInput raw with
  | Err e => RequestValidationError e
  | Ok input_texts => predict_batch model_instance input_texts
  end.

End Service.

(** ** What the code relies on from scikit-learn *)

Module Backend.

Import Classifier.

(** A row of [predict_proba] of a binary classifier: two probabilities that
    add up to one within [tol]. *)
Definition binary_distribution (tol : Q) (row : list Q) : Prop :=
  exists p0 p1 : Q,
    row = [p0; p1] /\ (0 <= p0)%Q /\ (0 <= p1)%Q /\ (Qabs (p0 + p1 - 1) <= tol)%Q.

(** The class [predict] answers is one whose probability is the largest of
    the row. *)
Definition most_probable (c : Z) (row : list Q) : Prop :=
  0 <= c /\
  exists p : Q, row !! Z.to_nat c = Some p /\ Forall (fun q => (q <= p)%Q) row.

(** A fitted binary probabilistic classifier: what [predict] and
    [predict_proba] answer for one text belongs together. *)
Definition probabilistic (tol : Q) (m : Pipeline) : Prop :=
  forall (t : pystr) (cs : list Z) (rows : list (list Q)) (c : Z) (row : list Q),
    pipe_predict m [t] = Ok cs -> pipe_predict_proba m [t] = Ok rows ->
    cs !! 0%nat = Some c -> rows !! 0%nat = Some row ->
    binary_distribution tol row /\ most_probable c row.

(** Inference treats the rows of its input independently: the answer for the
    text at index [i] of a batch is the answer for that text alone. *)
Definition rowwise (m : Pipeline) : Prop :=
  forall (texts : list pystr) (cs : list Z) (rows : list (list Q)),
    pipe_predict m texts = Ok cs -> pipe_predict_proba m texts = Ok rows ->
    forall (i : nat) (t : pystr), texts !! i = Some t ->
      exists (c : Z) (row : list Q) (cs1 : list Z) (rows1 : list (list Q)),
        cs !! i = Some c /\ rows !! i = Some row /\
        pipe_predict m [t] = Ok cs1 /\ cs1 !! 0%nat = Some c /\
        pipe_predict_proba m [t] = Ok rows1 /\ rows1 !! 0%nat = Some row.

(** Artifacts read from disk and pipelines that have been fitted answer the
    [features] query of [get_model_info]: their [tfidf] step is there and is
    fitted. *)
Definition describes_features (env : LoadEnv) : Prop :=
  (forall path p, joblib_load env path = Ok p ->
                  is_ok (pipe_tfidf_features p) = true) /\
  (forall p p', fit_examples env p = Ok p' ->
                is_ok (pipe_tfidf_features p') = true).

(** The pipelines of the kind the code trains: a binary classifier that
    gives each text the probability [proba t] of class 1, answers class 1
    when that probability exceeds one half, and whose [tfidf] step answers
    the feature query. Each text is treated on its own. *)
Definition binary_pipeline (proba : pystr -> Q) (features : option Z) : Pipeline :=
  {| pipe_predict :=
       fun texts => Ok ((fun t => if gt (proba t) (1 # 2) then 1 else 0) <$> texts);
     pipe_predict_proba :=
       fun texts => Ok ((fun t => [1 - proba t; proba t]%Q) <$> texts);
     pipe_tfidf_features := Ok features |}.

End Backend.

(** ** A small classifier to run the code on *)

Module Toy.

Import Classifier.

(** Texts of odd length are positive with probability 3/4, the others
    with probability 1/4. *)
Definition toy_proba (t : pystr) : Q :=
  if Z.odd (len t) then (3 # 4)%Q else (1 # 4)%Q.

Definition toy_pipeline : Pipeline := Backend.binary_pipeline toy_proba (Some 12).

(** A pipeline that has not been fitted: every query raises. *)
Definition unfitted_pipeline : Pipeline :=
  {| pipe_predict := fun _ => Err (OtherException "not fitted");
     pipe_predict_proba := fun _ => Err (OtherException "not fitted");
     pipe_tfidf_features := Err (OtherException "not fitted") |}.

(** No artifact on disk; training and saving the example model succeed. *)
Definition toy_env : LoadEnv :=
  {| path_exists := fun _ => false;
     joblib_load := fun _ => Err (OtherException "no such file");
     new_pipeline := unfitted_pipeline;
     fit_examples := fun _ => Ok toy_pipeline;
     makedirs_dump := fun _ _ => Ok tt |}.

(** The artifact on disk cannot be read. *)
Definition broken_env : LoadEnv :=
  {| path_exists := fun _ => true;
     joblib_load := fun _ => Err (OtherException "corrupt artifact");
     new_pipeline := unfitted_pipeline;
     fit_examples := fun _ => Ok toy_pipeline;
     makedirs_dump := fun _ _ => Ok tt |}.

Definition toy_loaded : TextClassificationModel := fst (load_model toy_env init).

Definition tolerance : Q := (1 # 1000000)%Q.

(** [n] copies of one character. *)
Definition chars (n : Z) (c : N) : pystr := replicate (Z.to_nat n) c.

Definition letter_a : N := 97.
Definition space : N := 32.

(** A pipeline that answers a class outside the label map for texts of three
    characters. *)
Definition faulty_pipeline : Pipeline :=
  {| pipe_predict := fun texts => Ok ((fun t => if len t =? 3 then 7 else 0) <$> texts);
     pipe_predict_proba := pipe_predict_proba toy_pipeline;
     pipe_tfidf_features := Ok (Some 12) |}.

Definition faulty_loaded : TextClassificationModel :=
  {| model := Some faulty_pipeline; is_loaded := true;
     model_path := "/tmp/text_classifier.joblib" |}.

(** What [predict] gives for the text [hola] on the toy classifier. *)
Definition hola_result : result :=
  {| text := text_of "hola";
     prediction := "negativo";
     confidence := (3 # 4)%Q;
     probabilities := {[ "negativo" := (3 # 4)%Q; "positivo" := (1 # 4)%Q ]} |}.

(** And for the three letters [muy]. *)
Definition muy_result : result :=
  {| text := text_of "muy";
     prediction := "positivo";
     confidence := (3 # 4)%Q;
     probabilities := {[ "negativo" := (1 # 4)%Q; "positivo" := (3 # 4)%Q ]} |}.

End Toy.

(** ** The order of checks the specification gives for one text *)

Module SpecOrder.

Import Validation.

(** The length bound on the untrimmed string first, then the trim, then the
    check for emptiness; [too_long] and [empty] are what the two checks
    report. *)
Definition length_then_empty (too_long empty : validation_error) (t : pystr)
  : res validation_error pystr :=
  if 5000 <? len t then Err too_long
  else if is_nil (strip t) then Err empty
  else Ok (strip t).

End SpecOrder.

(** ** Start of the application ([lifespan] in [app/main.py]) *)

Module Startup.

Import Classifier.

Definition msg_startup : string := "No se pudo cargar el modelo de IA".

(** The part of [lifespan] before [yield]: the instance afterwards, and
    [Err] with the [RuntimeError] when [load_model] returned [False], in which
    case the application does not start. *)
Definition lifespan (env : LoadEnv) (model_instance : TextClassificationModel)
  : TextClassificationModel * res pyexn unit :=
  let (model_instance', success) := load_model env model_instance in
  if negb success then (model_instance', Err (OtherException msg_startup))
  else (model_instance', Ok tt).

End Startup.

(** ** [load_model] on a disk *)

Module Disk.

Import Classifier.

(** What a file holds for [joblib.load]: a pickled pipeline, or bytes it
    cannot read. *)
Inductive artifact : Type :=
| Pickled (p : Pipeline)
| Garbage.

(** The files by path, the pipeline [Pipeline([...])] builds, what [fit] on
    the example corpus makes of it, and whether [os.makedirs] and
    [joblib.dump] are allowed to write. *)
Record World : Type := {
  files : gmap string artifact;
  unfitted : Pipeline;
  fit : Pipeline -> res pyexn Pipeline;
  writable : bool
}.

(** [os.path.exists(path)] *)
Definition exists_path (w : World) (path : string) : bool :=
  match files w !! path with
  | Some _ => true
  | None => false
  end.

(** [joblib.load(path)] *)
Definition load (w : World) (path : string) : res pyexn Pipeline :=
  match files w !! path with
  | Some (Pickled p) => Ok p
  | Some Garbage => Err (OtherException "cannot unpickle")
  | None => Err (OtherException "no such file")
  end.

(** [os.makedirs(..., exist_ok=True); joblib.dump(p, path)] *)
Definition dump (w : World) (p : Pipeline) (path : string)
  : World * res pyexn unit :=
  if writable w then
    ({| files := <[path := Pickled p]> (files w); unfitted := unfitted w;
        fit := fit w; writable := writable w |}, Ok tt)
  else (w, Err (OtherException "permission denied")).

(** [_create_example_model], with the disk it leaves. *)
Definition create_example_model_on (w : World) (self : TextClassificationModel)
  : World * TextClassificationModel * res pyexn unit :=
  let self1 := {| model := Some (unfitted w);
                  is_loaded := is_loaded self;
                  model_path := model_path self |} in
  match fit w (unfitted w) with
  | Err e => (w, self1, Err e)
  | Ok fitted =>
      let self2 := {| model := Some fitted;
                      is_loaded := is_loaded self;
                      model_path := model_path self |} in
      match dump w fitted (model_path self) with
      | (w', Err e) => (w', self2, Err e)
      | (w', Ok _) =>
          (w', {| model := Some fitted; is_loaded := true;
                  model_path := model_path self |}, Ok tt)
      end
  end.

(** [load_model], with the disk it leaves. *)
Definition load_model_on (w : World) (self : TextClassificationModel)
  : World * TextClassificationModel * bool :=
  if exists_path w (model_path self) then
    match load w (model_path self) with
    | Ok loaded =>
        (w, {| model := Some loaded; is_loaded := true;
               model_path := model_path self |}, true)
    | Err _ => (w, self, false)
    end
  else
    match create_example_model_on w self with
    | (w', self', Ok _) => (w', self', true)
    | (w', self', Err _) => (w', self', false)
    end.


(** An empty disk on which the toy classifier is what training gives. *)
Definition empty_world : World :=
  {| files := ∅;
     unfitted := Toy.unfitted_pipeline;
     fit := fun _ => Ok Toy.toy_pipeline;
     writable := true |}.


End Disk.

(** ** Vocabulary of the further properties *)

(** A run of whitespace. *)
Definition all_space (s : pystr) : Prop := Forall (fun c => is_space c = true) s.

(** The two labels of [label_map]. *)
Definition is_label (l : string) : Prop :=
  l = "negativo"%string \/ l = "positivo"%string.

(** Every artifact the environment can load and every pipeline it can fit is
    a binary classifier in the sense of [Backend.binary_pipeline], with
    probabilities between 0 and 1. *)
Definition binary_env (env : Classifier.LoadEnv) : Prop :=
  forall p,
    ((exists path, Classifier.joblib_load env path = Ok p)
     \/ (exists p0, Classifier.fit_examples env p0 = Ok p)) ->
    exists proba features,
      p = Backend.binary_pipeline proba features /\
      forall t, (0 <= proba t)%Q /\ (proba t <= 1)%Q.

(** A pipeline that answers one class and one row, however many texts it is
    given. *)
Definition short_pipeline : Classifier.Pipeline :=
  {| Classifier.pipe_predict := fun _ => Ok [0];
     Classifier.pipe_predict_proba := fun _ => Ok [[(3 # 4)%Q; (1 # 4)%Q]];
     Classifier.pipe_tfidf_features := Ok (Some 12) |}.

Definition short_loaded : Classifier.TextClassificationModel :=
  {| Classifier.model := Some short_pipeline;
     Classifier.is_loaded := true;
     Classifier.model_path := "/tmp/text_classifier.joblib" |}.

(** No artifact on disk, and training the example model fails. *)
Definition failing_fit_env : Classifier.LoadEnv :=
  {| Classifier.path_exists := fun _ => false;
     Classifier.joblib_load := fun _ => Err (Classifier.OtherException "no such file");
     Classifier.new_pipeline := Toy.unfitted_pipeline;
     Classifier.fit_examples := fun _ => Err (Classifier.OtherException "fit failed");
     Classifier.makedirs_dump := fun _ _ => Ok tt |}.

(** The instance such a [load_model] leaves: a pipeline that is not fitted,
    and the flag still false. *)
Definition half_built : Classifier.TextClassificationModel :=
  {| Classifier.model := Some Toy.unfitted_pipeline;
     Classifier.is_loaded := false;
     Classifier.model_path := "/tmp/text_classifier.joblib" |}.

(** * Properties *)

(** ** Trimming *)

Section Strip.

Implicit Types s : pystr.

Lemma len_nonneg {A : Type} (l : list A) : 0 <= len l.
Proof. unfold len. lia. Qed.

Lemma is_nil_true {A : Type} (l : list A) : is_nil l = true <-> l = [].
Proof. destruct l; simpl; split; congruence. Qed.

Lemma is_nil_false {A : Type} (l : list A) : is_nil l = false <-> l <> [].
Proof. destruct l; simpl; split; congruence. Qed.

Lemma lstrip_head s :
  lstrip s = [] \/ exists c rest, lstrip s = c :: rest /\ is_space c = false.
Proof.
  induction s as [|c rest IH]; simpl; [by left|].
  destruct (is_space c) eqn:Hc; [exact IH|].
  right. by exists c, rest.
Qed.

Lemma lstrip_fixed c rest : is_space c = false -> lstrip (c :: rest) = c :: rest.
Proof. intros Hc. simpl. by rewrite Hc. Qed.

Lemma rstrip_cons_keep c rest :
  is_space c = false -> rstrip (c :: rest) = c :: rstrip rest.
Proof. intros Hc. simpl. by rewrite Hc. Qed.

Lemma rstrip_idemp s : rstrip (rstrip s) = rstrip s.
Proof.
  induction s as [|c rest IH]; simpl; [done|].
  destruct (is_space c && is_nil (rstrip rest)) eqn:Hdrop; simpl; [done|].
  by rewrite IH, Hdrop.
Qed.

Lemma length_lstrip s : (length (lstrip s) <= length s)%nat.
Proof.
  induction s as [|c rest IH]; simpl; [done|].
  destruct (is_space c); simpl; lia.
Qed.

Lemma length_rstrip s : (length (rstrip s) <= length s)%nat.
Proof.
  induction s as [|c rest IH]; simpl; [done|].
  destruct (is_space c && is_nil (rstrip rest)); simpl; lia.
Qed.

Lemma len_strip s : len (strip s) <= len s.
Proof.
  unfold len, strip.
  pose proof (length_rstrip (lstrip s)). pose proof (length_lstrip s). lia.
Qed.

(** Trimming a trimmed text changes nothing. *)
Lemma strip_idemp s : strip (strip s) = strip s.
Proof.
  unfold strip.
  destruct (lstrip_head s) as [Hnil | (c & rest & Heq & Hc)].
  - by rewrite Hnil.
  - rewrite Heq, (rstrip_cons_keep _ _ Hc), (lstrip_fixed _ _ Hc).
    rewrite <- (rstrip_cons_keep _ _ Hc). apply rstrip_idemp.
Qed.

Lemma strip_nonempty_len s : strip s <> [] -> 1 <= len (strip s).
Proof. destruct (strip s); [done|]. unfold len. simpl. lia. Qed.

End Strip.

(** ** Request validation *)

Section ValidationFacts.

Import Validation.

Lemma field_length_ok lo hi (t : pystr) :
  lo <= len t <= hi -> field_length lo hi t = Ok t.
Proof.
  intros [Hlo Hhi]. unfold field_length.
  destruct (Z.ltb_spec (len t) lo); [lia|].
  destruct (Z.ltb_spec hi (len t)); [lia|done].
Qed.

Lemma field_items_ok {A : Type} lo hi (v : list A) :
  lo <= len v <= hi -> field_items lo hi v = Ok v.
Proof.
  intros [Hlo Hhi]. unfold field_items.
  destruct (Z.ltb_spec (len v) lo); [lia|].
  destruct (Z.ltb_spec hi (len v)); [lia|done].
Qed.

Lemma validate_text_ok (t : pystr) : strip t <> [] -> validate_text t = Ok (strip t).
Proof.
  intros Hne. unfold validate_text.
  by rewrite (proj2 (is_nil_false _) Hne).
Qed.

Lemma validate_text_blank (t : pystr) :
  strip t = [] -> validate_text t = Err (validator_error msg_text_empty).
Proof. intros Hnil. unfold validate_text. by rewrite Hnil. Qed.

Lemma validate_texts_item_ok (t : pystr) :
  valid_item t -> validate_texts_item t = Ok (strip t).
Proof.
  intros [Hne Hlen]. unfold validate_texts_item.
  rewrite (proj2 (is_nil_false _) Hne).
  destruct (Z.ltb_spec 5000 (len t)); [lia|done].
Qed.

Lemma validate_texts_item_inv (t cleaned : pystr) :
  validate_texts_item t = Ok cleaned -> valid_item t /\ cleaned = strip t.
Proof.
  unfold validate_texts_item, valid_item.
  destruct (is_nil (strip t)) eqn:Hnil; [done|].
  destruct (Z.ltb_spec 5000 (len t)); [done|].
  intros [= <-]. apply is_nil_false in Hnil. done.
Qed.

(** The loop appends the trimmed texts to the list it was given. *)
Lemma validate_texts_loop_ok (v acc : list pystr) :
  Forall valid_item v -> validate_texts_loop v acc = Ok (acc ++ (strip <$> v)).
Proof.
  intros Hall. revert acc.
  induction Hall as [|t rest Ht _ IH]; intros acc; simpl.
  - by rewrite app_nil_r.
  - rewrite (validate_texts_item_ok _ Ht). simpl.
    rewrite IH, <- app_assoc. done.
Qed.

(** The loop stops at the first element that fails, with its error. *)
Lemma validate_texts_loop_first_failure (pre post acc : list pystr) (bad : pystr) e :
  Forall valid_item pre -> validate_texts_item bad = Err e ->
  validate_texts_loop (pre ++ bad :: post) acc = Err e.
Proof.
  intros Hall Hbad. revert acc.
  induction Hall as [|t rest Ht _ IH]; intros acc; simpl.
  - by rewrite Hbad.
  - rewrite (validate_texts_item_ok _ Ht). simpl. apply IH.
Qed.

Lemma BatchTextInput_ok (v : list pystr) :
  1 <= len v <= 100 -> Forall valid_item v -> BatchTextInput v = Ok (strip <$> v).
Proof.
  intros Hlen Hall. unfold BatchTextInput.
  rewrite (field_items_ok _ _ _ Hlen). simpl. unfold validate_texts.
  destruct v as [|t rest]; [unfold len in Hlen; simpl in Hlen; lia|].
  simpl is_nil. cbv iota. by rewrite (validate_texts_loop_ok _ _ Hall).
Qed.

Lemma BatchTextInput_first_failure (pre post : list pystr) (bad : pystr) e :
  1 <= len (pre ++ bad :: post) <= 100 ->
  Forall valid_item pre -> validate_texts_item bad = Err e ->
  BatchTextInput (pre ++ bad :: post) = Err e.
Proof.
  intros Hlen Hall Hbad. unfold BatchTextInput.
  rewrite (field_items_ok _ _ _ Hlen). simpl. unfold validate_texts.
  assert (is_nil (pre ++ bad :: post) = false) as ->
    by (apply is_nil_false; by destruct pre).
  by apply validate_texts_loop_first_failure.
Qed.

End ValidationFacts.

(** ** Boundaries of the accepted inputs *)

Section Boundaries.

Import Validation.

(** C4. Single-text validation accepts a text of exactly 5000 characters
    (that is not blank) and gives back its trimmed form, rejects every text of
    5001 characters and every text that is empty after trimming; batch
    validation rejects the empty list and every list of 101 items, and accepts
    the lists of exactly 1 and exactly 100 valid items. *)
Theorem validation_boundaries
    (t5000 t5001 blank : pystr) (b1 b100 b101 : list pystr) :
  len t5000 = 5000 -> strip t5000 <> [] ->
  len t5001 = 5001 ->
  strip blank = [] ->
  len b1 = 1 -> Forall valid_item b1 ->
  len b100 = 100 -> Forall valid_item b100 ->
  len b101 = 101 ->
  TextInput t5000 = Ok (strip t5000) /\
  TextInput t5001 = Err (max_length_error 5000) /\
  (exists e, TextInput blank = Err e) /\
  BatchTextInput [] = Err (min_items_error 1) /\
  BatchTextInput b101 = Err (max_items_error 100) /\
  BatchTextInput b1 = Ok (strip <$> b1) /\
  BatchTextInput b100 = Ok (strip <$> b100).
Proof.
  intros H5000 Hne H5001 Hblank H1 Hv1 H100 Hv100 H101.
  repeat split.
  - unfold TextInput. rewrite field_length_ok by lia. simpl.
    by apply validate_text_ok.
  - unfold TextInput, field_length. rewrite H5001. done.
  - unfold TextInput.
    destruct (field_length 1 5000 blank) as [e|v] eqn:Hfield; simpl; [by exists e|].
    unfold field_length in Hfield.
    destruct (len blank <? 1); [done|].
    destruct (5000 <? len blank); [done|].
    injection Hfield as <-.
    exists (validator_error msg_text_empty). by apply validate_text_blank.
  - unfold BatchTextInput, field_items. rewrite H101. done.
  - apply BatchTextInput_ok; [lia|done].
  - apply BatchTextInput_ok; [lia|done].
Qed.

Lemma Forall_replicate_valid (n : nat) (t : pystr) :
  valid_item t -> Forall valid_item (replicate n t).
Proof. intros Ht. induction n; simpl; by constructor. Qed.

Lemma valid_item_hola : valid_item (text_of "hola").
Proof. split; [done | by vm_compute]. Qed.

Lemma validation_boundaries_witness :
  let t5000 := Toy.chars 5000 Toy.letter_a in
  let t5001 := Toy.chars 5001 Toy.letter_a in
  let blank := Toy.chars 3 Toy.space in
  let b1 := [text_of " hola "] in
  let b100 := replicate 100 (text_of "hola") in
  let b101 := replicate 101 (text_of "hola") in
  TextInput t5000 = Ok (strip t5000) /\
  TextInput t5001 = Err (max_length_error 5000) /\
  (exists e, TextInput blank = Err e) /\
  BatchTextInput [] = Err (min_items_error 1) /\
  BatchTextInput b101 = Err (max_items_error 100) /\
  BatchTextInput b1 = Ok (strip <$> b1) /\
  BatchTextInput b100 = Ok (strip <$> b100).
Proof.
  apply (validation_boundaries
           (Toy.chars 5000 Toy.letter_a) (Toy.chars 5001 Toy.letter_a)
           (Toy.chars 3 Toy.space)
           [text_of " hola "] (replicate 100 (text_of "hola"))
           (replicate 101 (text_of "hola"))).
  - vm_compute. reflexivity.
  - assert (Hhead : is_nil (strip (Toy.chars 5000 Toy.letter_a)) = false)
      by (vm_compute; reflexivity).
    apply is_nil_false. exact Hhead.
  - vm_compute. reflexivity.
  - vm_compute. reflexivity.
  - vm_compute. reflexivity.
  - constructor; [|constructor]. split; [discriminate | vm_compute; discriminate].
  - vm_compute. reflexivity.
  - apply Forall_replicate_valid, valid_item_hola.
  - vm_compute. reflexivity.
Defined.

End Boundaries.

(** ** Order of the checks *)

Section CheckOrder.

Import Validation SpecOrder.

Lemma TextInput_ok (t : pystr) :
  len t <= 5000 -> strip t <> [] -> TextInput t = Ok (strip t).
Proof.
  intros Hmax Hne. unfold TextInput.
  pose proof (len_strip t). pose proof (strip_nonempty_len _ Hne).
  rewrite field_length_ok by lia. simpl. by apply validate_text_ok.
Qed.

(** C5, as stated, fails for batch items: a string of 5001 spaces put through
    the checks in the order "length bound, trim, emptiness" is rejected for
    its length, while [validate_texts] rejects it, alone in a batch, for being
    empty. *)
Lemma batch_item_order_counterexample :
  length_then_empty (validator_error msg_item_too_long)
    (validator_error msg_item_empty) (Toy.chars 5001 Toy.space)
  = Err (validator_error msg_item_too_long)
  /\ validate_texts_item (Toy.chars 5001 Toy.space)
     = Err (validator_error msg_item_empty)
  /\ BatchTextInput [Toy.chars 5001 Toy.space]
     = Err (validator_error msg_item_empty)
  /\ validator_error msg_item_empty <> validator_error msg_item_too_long.
Proof.
  split; [vm_compute; reflexivity|].
  split; [vm_compute; reflexivity|].
  split; [vm_compute; reflexivity|].
  discriminate.
Qed.

(** C5, amended. A single text goes through the bounds of the field on the
    untrimmed string (at least 1, at most 5000 characters), then the trim and
    the emptiness check, and the rejection is that of the first check to fail
    in this order. A batch within the size limits is rejected at its first
    invalid item, and for that item emptiness after trimming is reported
    before the 5000-character bound on the untrimmed string. *)
Theorem validation_check_order (t : pystr) (pre post : list pystr) (bad : pystr) :
  1 <= len (pre ++ bad :: post) <= 100 ->
  Forall valid_item pre ->
  TextInput t =
    (if len t <? 1 then Err (min_length_error 1)
     else length_then_empty (max_length_error 5000)
            (validator_error msg_text_empty) t)
  /\ (strip bad = [] ->
      BatchTextInput (pre ++ bad :: post) = Err (validator_error msg_item_empty))
  /\ (strip bad <> [] -> 5000 < len bad ->
      BatchTextInput (pre ++ bad :: post)
      = Err (validator_error msg_item_too_long)).
Proof.
  intros Hsize Hpre. split; [|split].
  - unfold TextInput, field_length, length_then_empty, validate_text.
    destruct (len t <? 1); [done|].
    destruct (5000 <? len t); done.
  - intros Hblank. apply BatchTextInput_first_failure; [done..|].
    unfold validate_texts_item. by rewrite Hblank.
  - intros Hne Hlong. apply BatchTextInput_first_failure; [done..|].
    unfold validate_texts_item.
    rewrite (proj2 (is_nil_false _) Hne).
    destruct (Z.ltb_spec 5000 (len bad)); [done|lia].
Qed.

Lemma validation_check_order_witness :
  TextInput (Toy.chars 5001 Toy.space) = Err (max_length_error 5000)
  /\ BatchTextInput [text_of "hola"; Toy.chars 5001 Toy.space]
     = Err (validator_error msg_item_empty).
Proof.
  assert (Hsize : 1 <= len ([text_of "hola"] ++ Toy.chars 5001 Toy.space :: []) <= 100)
    by (vm_compute; split; discriminate).
  assert (Hpre : Forall valid_item [text_of "hola"])
    by (constructor; [apply valid_item_hola | constructor]).
  destruct (validation_check_order (Toy.chars 5001 Toy.space)
              [text_of "hola"] [] (Toy.chars 5001 Toy.space) Hsize Hpre)
    as (Hsingle & Hblank & _).
  split.
  - rewrite Hsingle. vm_compute. reflexivity.
  - apply Hblank. vm_compute. reflexivity.
Defined.

End CheckOrder.

(** ** Trimming and classification *)

Section Trimming.

Import Validation Classifier Service.

(** C7, as stated, fails: 5000 letters followed by one space trim to a text
    within the bound, which is classified, while the untrimmed text is
    rejected for its length before any trimming. *)
Lemma trim_invariance_counterexample :
  1 <= len (strip (Toy.chars 5000 Toy.letter_a ++ [Toy.space])) <= 5000
  /\ post_predict Toy.toy_loaded (Toy.chars 5000 Toy.letter_a ++ [Toy.space])
     = RequestValidationError (max_length_error 5000)
  /\ exists body,
       post_predict Toy.toy_loaded
         (strip (Toy.chars 5000 Toy.letter_a ++ [Toy.space]))
       = Response body.
Proof.
  split; [vm_compute; split; discriminate|].
  split; [vm_compute; reflexivity|].
  eexists. vm_compute. reflexivity.
Qed.

(** C7, amended. When the text as received has at most 5000 characters and its
    trimmed form satisfies the length bound, the request with the text and
    the request with its trimmed form get the same answer. *)
Theorem trim_invariance (self : TextClassificationModel) (raw : pystr) :
  1 <= len (strip raw) <= 5000 ->
  len raw <= 5000 ->
  post_predict self raw = post_predict self (strip raw).
Proof.
  intros Hstrip Hraw. unfold post_predict.
  assert (Hne : strip raw <> []).
  { intros Hnil. rewrite Hnil in Hstrip. unfold len in Hstrip. simpl in Hstrip. lia. }
  rewrite (TextInput_ok raw Hraw Hne).
  rewrite (TextInput_ok (strip raw)); rewrite ?strip_idemp; [done|lia|done].
Qed.

Lemma trim_invariance_witness :
  post_predict Toy.toy_loaded (text_of "  hola ")
  = post_predict Toy.toy_loaded (strip (text_of "  hola ")).
Proof.
  apply (trim_invariance Toy.toy_loaded (text_of "  hola ")).
  - vm_compute. split; discriminate.
  - vm_compute. discriminate.
Defined.

End Trimming.

(** ** The classifier *)

Section ClassifierFacts.

Import Classifier.

Lemma bind_ok {E A B : Type} (m : res E A) (k : A -> res E B) (b : B) :
  bind m k = Ok b -> exists a, m = Ok a /\ k a = Ok b.
Proof. destruct m as [e|a]; simpl; [done|]. intros Hk. by exists a. Qed.

Lemma item_ok {A : Type} (a : list A) (i : nat) (x : A) :
  item a i = Ok x <-> a !! i = Some x.
Proof. unfold item. destruct (a !! i); split; congruence. Qed.

Lemma label_map_ok (c : Z) (l : string) :
  label_map c = Ok l <->
  (c = 0 /\ l = "negativo"%string) \/ (c = 1 /\ l = "positivo"%string).
Proof.
  unfold label_map.
  destruct (Z.eqb_spec c 0) as [->|Hc0].
  { split; [intros [= <-]; by left | intros [[_ ->]|[? _]]; done]. }
  destruct (Z.eqb_spec c 1) as [->|Hc1].
  { split; [intros [= <-]; by right | intros [[? _]|[_ ->]]; done]. }
  split; [done | intros [[-> _]|[-> _]]; done].
Qed.

Lemma gt_false (x y : Q) : gt x y = false <-> (x <= y)%Q.
Proof.
  unfold gt. rewrite negb_false_iff. apply Qle_bool_iff.
Qed.

Lemma gt_true (x y : Q) : gt x y = true -> (y < x)%Q.
Proof.
  unfold gt. rewrite negb_true_iff. intros Hle.
  apply Qnot_le_lt. intros Hxy.
  apply Qle_bool_iff in Hxy. congruence.
Qed.

(** What a successful [predict] went through. *)
Lemma predict_ok_inv (self : TextClassificationModel) (t : pystr) (r : result) :
  predict self t = Ok r ->
  exists m cs c rows row lbl conf p0 p1,
    is_loaded self = true /\ model self = Some m /\
    pipe_predict m [t] = Ok cs /\ cs !! 0%nat = Some c /\
    pipe_predict_proba m [t] = Ok rows /\ rows !! 0%nat = Some row /\
    label_map c = Ok lbl /\ max row = Ok conf /\
    row !! 0%nat = Some p0 /\ row !! 1%nat = Some p1 /\
    r = {| text := t; prediction := lbl; confidence := conf;
           probabilities := {[ "negativo" := p0; "positivo" := p1 ]} |}.
Proof.
  unfold predict. destruct (is_loaded self); [|done].
  destruct (model self) as [m|]; [|done].
  intros H.
  apply bind_ok in H as (cs & Hcs & H).
  apply bind_ok in H as (c & Hc & H).
  apply bind_ok in H as (rows & Hrows & H).
  apply bind_ok in H as (row & Hrow & H).
  apply bind_ok in H as (lbl & Hlbl & H).
  apply bind_ok in H as (conf & Hconf & H).
  apply bind_ok in H as (p0 & Hp0 & H).
  apply bind_ok in H as (p1 & Hp1 & H).
  injection H as <-.
  apply item_ok in Hc, Hrow, Hp0, Hp1.
  exists m, cs, c, rows, row, lbl, conf, p0, p1. done.
Qed.

Lemma batch_result_ok_inv (preds : list Z) (probs : list (list Q)) (i : nat)
    (t : pystr) (r : result) :
  batch_result preds probs i t = Ok r ->
  exists c row lbl conf p0 p1,
    preds !! i = Some c /\ probs !! i = Some row /\
    label_map c = Ok lbl /\ max row = Ok conf /\
    row !! 0%nat = Some p0 /\ row !! 1%nat = Some p1 /\
    r = {| text := t; prediction := lbl; confidence := conf;
           probabilities := {[ "negativo" := p0; "positivo" := p1 ]} |}.
Proof.
  unfold batch_result. intros H.
  apply bind_ok in H as (c & Hc & H).
  apply bind_ok in H as (lbl & Hlbl & H).
  apply bind_ok in H as (row & Hrow & H).
  apply bind_ok in H as (conf & Hconf & H).
  apply bind_ok in H as (p0 & Hp0 & H).
  apply bind_ok in H as (p1 & Hp1 & H).
  injection H as <-.
  apply item_ok in Hc, Hrow, Hp0, Hp1.
  exists c, row, lbl, conf, p0, p1. done.
Qed.

(** A batch result is the single result when the pipeline answers the one
    text with the same class and the same row. *)
Lemma batch_result_predict (self : TextClassificationModel) (m : Pipeline)
    (preds cs1 : list Z) (probs rows1 : list (list Q)) (i : nat) (t : pystr)
    (c : Z) (row : list Q) (r : result) :
  is_loaded self = true -> model self = Some m ->
  preds !! i = Some c -> probs !! i = Some row ->
  pipe_predict m [t] = Ok cs1 -> cs1 !! 0%nat = Some c ->
  pipe_predict_proba m [t] = Ok rows1 -> rows1 !! 0%nat = Some row ->
  batch_result preds probs i t = Ok r ->
  predict self t = Ok r.
Proof.
  intros Hl Hm Hc Hrow Hcs1 Hc1 Hrows1 Hrow1 Hr.
  unfold predict. rewrite Hl, Hm, Hcs1. simpl.
  rewrite (proj2 (item_ok _ _ _) Hc1). simpl.
  rewrite Hrows1. simpl.
  rewrite (proj2 (item_ok _ _ _) Hrow1). simpl.
  unfold batch_result in Hr.
  rewrite (proj2 (item_ok _ _ _) Hc) in Hr. simpl in Hr.
  destruct (label_map c) as [e|lbl]; simpl in *; [done|].
  rewrite (proj2 (item_ok _ _ _) Hrow) in Hr. simpl in Hr.
  exact Hr.
Qed.

(** The loop gives one result per text, in the order of the texts, after the
    results it was given. *)
Lemma predict_batch_loop_ok (preds : list Z) (probs : list (list Q))
    (texts : list pystr) :
  forall (i : nat) (acc rs : list result),
    predict_batch_loop preds probs i texts acc = Ok rs ->
    exists rs',
      rs = acc ++ rs' /\ length rs' = length texts /\
      forall (j : nat) (t : pystr), texts !! j = Some t ->
        exists r, rs' !! j = Some r /\
                  batch_result preds probs (i + j) t = Ok r.
Proof.
  induction texts as [|t0 rest IH]; intros i acc rs H; simpl in H.
  - injection H as <-. exists []. rewrite app_nil_r. repeat split. intros j t Hj.
    by rewrite lookup_nil in Hj.
  - apply bind_ok in H as (r0 & Hr0 & H).
    apply IH in H as (rs' & -> & Hlen & Hitems).
    exists (r0 :: rs'). rewrite <- app_assoc. simpl. repeat split; [by rewrite Hlen|].
    intros [|j] t Hj; simpl in Hj.
    + injection Hj as <-. exists r0. rewrite Nat.add_0_r. done.
    + destruct (Hitems j t Hj) as (r & Hr & Hb). exists r. split; [done|].
      by replace (i + S j)%nat with (S i + j)%nat by lia.
Qed.

(** The loop fails as soon as the result of one text cannot be built. *)
Lemma predict_batch_loop_err (preds : list Z) (probs : list (list Q))
    (texts : list pystr) :
  forall (i j : nat) (acc : list result) (t : pystr) e,
    texts !! j = Some t -> batch_result preds probs (i + j) t = Err e ->
    exists e', predict_batch_loop preds probs i texts acc = Err e'.
Proof.
  induction texts as [|t0 rest IH]; intros i j acc t e Hj Hbad.
  - by rewrite lookup_nil in Hj.
  - simpl. destruct j as [|j]; simpl in Hj.
    + injection Hj as ->. rewrite Nat.add_0_r in Hbad. rewrite Hbad. simpl. by exists e.
    + destruct (batch_result preds probs i t0) as [e0|r0]; simpl; [by exists e0|].
      apply (IH (S i) j _ t e Hj).
      by replace (S i + j)%nat with (i + S j)%nat by lia.
Qed.

End ClassifierFacts.

(** ** The toy classifier meets what is asked of scikit-learn *)

Section ToyFacts.

Import Classifier.

(** The pipelines of [Backend.binary_pipeline] meet both requirements. *)
Lemma binary_pipeline_probabilistic (tol : Q) (proba : pystr -> Q)
    (features : option Z) :
  (0 <= tol)%Q -> (forall t, (0 <= proba t)%Q /\ (proba t <= 1)%Q) ->
  Backend.probabilistic tol (Backend.binary_pipeline proba features).
Proof.
  intros Htol Hrange t cs rows c row Hcs Hrows Hc Hrow. simpl in Hcs, Hrows.
  injection Hcs as <-. injection Hrows as <-. simpl in Hc, Hrow.
  injection Hc as <-. injection Hrow as <-.
  destruct (Hrange t) as [H0 H1]. split.
  - exists (1 - proba t)%Q, (proba t). repeat split; [lra|done|].
    apply Qabs_case; intros _; lra.
  - destruct (gt (proba t) (1 # 2)) eqn:Hgt.
    + apply gt_true in Hgt. split; [done|]. exists (proba t). split; [done|].
      repeat constructor; lra.
    + apply gt_false in Hgt. split; [done|]. exists (1 - proba t)%Q.
      split; [done|]. repeat constructor; lra.
Qed.

Lemma binary_pipeline_rowwise (proba : pystr -> Q) (features : option Z) :
  Backend.rowwise (Backend.binary_pipeline proba features).
Proof.
  intros texts cs rows Hcs Hrows i t Hi. simpl in Hcs, Hrows.
  injection Hcs as <-. injection Hrows as <-.
  eexists _, _, _, _. rewrite !list_lookup_fmap, Hi. simpl.
  repeat split; reflexivity.
Qed.

Lemma toy_probabilistic : Backend.probabilistic Toy.tolerance Toy.toy_pipeline.
Proof.
  apply binary_pipeline_probabilistic; [by vm_compute|].
  intros t. unfold Toy.toy_proba. destruct (Z.odd (len t)); split; by vm_compute.
Qed.

Lemma toy_rowwise : Backend.rowwise Toy.toy_pipeline.
Proof. apply binary_pipeline_rowwise. Qed.

Lemma toy_loaded_model : model Toy.toy_loaded = Some Toy.toy_pipeline.
Proof. reflexivity. Qed.

End ToyFacts.

(** ** The result of a prediction *)

Section PredictInvariant.

Import Classifier.

(** [max] of a row of two is one of the two and bounds both. *)
Lemma max_pair (p0 p1 conf : Q) :
  max [p0; p1] = Ok conf ->
  (conf = p0 \/ conf = p1) /\ (p0 <= conf)%Q /\ (p1 <= conf)%Q.
Proof.
  simpl. intros [= <-]. destruct (gt p1 p0) eqn:Hgt.
  - apply gt_true, Qlt_le_weak in Hgt. split; [by right|].
    split; [done|apply Qle_refl].
  - apply gt_false in Hgt. split; [by left|]. split; [apply Qle_refl|done].
Qed.

Lemma lookup_pair_dict (p0 p1 q : Q) (l : string) :
  ({[ "negativo" := p0; "positivo" := p1 ]} : gmap string Q) !! l = Some q ->
  (l = "negativo"%string /\ q = p0) \/ (l = "positivo"%string /\ q = p1).
Proof.
  intros Hl. apply lookup_insert_Some in Hl as [[<- <-]|[_ Hl]]; [by left|].
  apply lookup_singleton_Some in Hl as [<- <-]. by right.
Qed.

(** C1. For every text a loaded classifier accepts, the result of [predict]
    has a confidence that is the largest value of its probability
    dictionary, a label whose probability is that value, and probabilities
    that are not negative and add up to one within the tolerance; the
    pipeline is a binary probabilistic classifier, whose [predict] answers a
    most probable class of the row of [predict_proba]. *)
Theorem predict_result_invariant (tol : Q) (self : TextClassificationModel)
    (m : Pipeline) (t : pystr) (r : result) :
  model self = Some m ->
  Backend.probabilistic tol m ->
  predict self t = Ok r ->
  (exists l, probabilities r !! l = Some (confidence r)) /\
  (forall l q, probabilities r !! l = Some q -> (q <= confidence r)%Q) /\
  (exists q, probabilities r !! prediction r = Some q /\ (q == confidence r)%Q) /\
  (forall l q, probabilities r !! l = Some q -> (0 <= q)%Q) /\
  (exists p0 p1,
      probabilities r = {[ "negativo" := p0; "positivo" := p1 ]} /\
      (Qabs (p0 + p1 - 1) <= tol)%Q).
Proof.
  intros Hm Hback Hr.
  apply predict_ok_inv in Hr
    as (m' & cs & c & rows & row & lbl & conf & p0 & p1
        & _ & Hm' & Hcs & Hc & Hrows & Hrow & Hlbl & Hconf & Hp0 & Hp1 & ->).
  assert (m' = m) as -> by congruence.
  destruct (Hback t cs rows c row Hcs Hrows Hc Hrow)
    as [(q0 & q1 & -> & Hq0 & Hq1 & Hsum) (Hc0 & p & Hp & Hbound)].
  simpl in Hp0, Hp1. injection Hp0 as ->. injection Hp1 as ->.
  destruct (max_pair _ _ _ Hconf) as (Hone & Hle0 & Hle1).
  simpl. repeat split.
  - destruct Hone as [-> | ->].
    + exists "negativo"%string. done.
    + exists "positivo"%string. done.
  - intros l q Hl. by destruct (lookup_pair_dict _ _ _ _ Hl) as [[_ ->]|[_ ->]].
  - apply Forall_cons in Hbound as [Hb0 Hb1]. apply Forall_cons in Hb1 as [Hb1 _].
    apply label_map_ok in Hlbl as [[-> ->]|[-> ->]]; simpl in Hp; injection Hp as <-.
    + exists p0. split; [done|]. apply Qle_antisym; [done|].
      destruct Hone as [-> | ->]; [apply Qle_refl | done].
    + exists p1. split; [done|]. apply Qle_antisym; [done|].
      destruct Hone as [-> | ->]; [done | apply Qle_refl].
  - intros l q Hl. by destruct (lookup_pair_dict _ _ _ _ Hl) as [[_ ->]|[_ ->]].
  - exists p0, p1. done.
Qed.

Lemma predict_result_invariant_witness :
  (exists l, probabilities Toy.hola_result !! l
             = Some (confidence Toy.hola_result)) /\
  (forall l q, probabilities Toy.hola_result !! l = Some q ->
               (q <= confidence Toy.hola_result)%Q) /\
  (exists q, probabilities Toy.hola_result !! prediction Toy.hola_result = Some q
             /\ (q == confidence Toy.hola_result)%Q) /\
  (forall l q, probabilities Toy.hola_result !! l = Some q -> (0 <= q)%Q) /\
  (exists p0 p1,
      probabilities Toy.hola_result = {[ "negativo" := p0; "positivo" := p1 ]} /\
      (Qabs (p0 + p1 - 1) <= Toy.tolerance)%Q).
Proof.
  apply (predict_result_invariant Toy.tolerance Toy.toy_loaded Toy.toy_pipeline
           (text_of "hola") Toy.hola_result).
  - reflexivity.
  - exact toy_probabilistic.
  - vm_compute. reflexivity.
Defined.

End PredictInvariant.

(** ** Batches *)

Section Batches.

Import Classifier.

Lemma predict_batch_ok_inv (self : TextClassificationModel) (texts : list pystr)
    (rs : list result) :
  predict_batch self texts = Ok rs ->
  exists m preds probs,
    is_loaded self = true /\ model self = Some m /\
    pipe_predict m texts = Ok preds /\ pipe_predict_proba m texts = Ok probs /\
    predict_batch_loop preds probs 0 texts [] = Ok rs.
Proof.
  unfold predict_batch. destruct (is_loaded self); [|done].
  destruct (model self) as [m|]; [|done].
  intros H.
  apply bind_ok in H as (preds & Hpreds & H).
  apply bind_ok in H as (probs & Hprobs & H).
  by exists m, preds, probs.
Qed.

(** C2. The result of [predict_batch] has one entry per text, in the order
    of the texts, and its entry at index [i] is what [predict] returns for the
    text at index [i] on the same loaded model; the pipeline answers for the
    rows of a batch independently. *)
Theorem batch_single_consistency (self : TextClassificationModel) (m : Pipeline)
    (texts : list pystr) (rs : list result) :
  model self = Some m ->
  Backend.rowwise m ->
  predict_batch self texts = Ok rs ->
  length rs = length texts /\
  forall (i : nat) (t : pystr), texts !! i = Some t ->
    exists r, rs !! i = Some r /\ predict self t = Ok r.
Proof.
  intros Hm Hrow Hrs.
  apply predict_batch_ok_inv in Hrs
    as (m' & preds & probs & Hl & Hm' & Hpreds & Hprobs & Hloop).
  assert (m' = m) as -> by congruence.
  apply predict_batch_loop_ok in Hloop as (rs' & -> & Hlen & Hitems).
  simpl. split; [done|].
  intros i t Hi.
  destruct (Hitems i t Hi) as (r & Hr & Hb). simpl in Hb.
  exists r. split; [done|].
  destruct (Hrow texts preds probs Hpreds Hprobs i t Hi)
    as (c & row & cs1 & rows1 & Hc & Hrw & Hcs1 & Hc1 & Hrows1 & Hrw1).
  by apply (batch_result_predict self m preds cs1 probs rows1 i t c row r).
Qed.

Lemma batch_single_consistency_witness :
  length [Toy.hola_result; Toy.muy_result]
  = length [text_of "hola"; text_of "muy"] /\
  forall (i : nat) (t : pystr), [text_of "hola"; text_of "muy"] !! i = Some t ->
    exists r, [Toy.hola_result; Toy.muy_result] !! i = Some r /\
              predict Toy.toy_loaded t = Ok r.
Proof.
  apply (batch_single_consistency Toy.toy_loaded Toy.toy_pipeline
           [text_of "hola"; text_of "muy"] [Toy.hola_result; Toy.muy_result]).
  - reflexivity.
  - exact toy_rowwise.
  - vm_compute. reflexivity.
Defined.

(** C6. [predict_batch] returns one result per text, each carrying its text,
    or it raises and returns nothing: it raises the not-loaded error when the
    model is not available, and it raises whenever the result of one text
    cannot be built, whatever the results built before it. *)
Theorem predict_batch_all_or_nothing (self : TextClassificationModel)
    (texts : list pystr) :
  ((exists rs, predict_batch self texts = Ok rs /\
               length rs = length texts /\
               forall i t, texts !! i = Some t ->
                 exists r, rs !! i = Some r /\ text r = t)
   \/ (exists e, predict_batch self texts = Err e))
  /\ ((is_loaded self = false \/ model self = None) ->
      predict_batch self texts = Err (ValueError msg_not_loaded))
  /\ (forall m preds probs i t e,
        is_loaded self = true -> model self = Some m ->
        pipe_predict m texts = Ok preds ->
        pipe_predict_proba m texts = Ok probs ->
        texts !! i = Some t -> batch_result preds probs i t = Err e ->
        exists e', predict_batch self texts = Err e').
Proof.
  split; [|split].
  - destruct (predict_batch self texts) as [e|rs] eqn:Hrs; [right; by exists e|].
    left. exists rs. split; [done|].
    apply predict_batch_ok_inv in Hrs
      as (m & preds & probs & _ & _ & _ & _ & Hloop).
    apply predict_batch_loop_ok in Hloop as (rs' & -> & Hlen & Hitems).
    simpl. split; [done|].
    intros i t Hi. destruct (Hitems i t Hi) as (r & Hr & Hb).
    exists r. split; [done|].
    apply batch_result_ok_inv in Hb
      as (c & row & lbl & conf & p0 & p1 & _ & _ & _ & _ & _ & _ & ->).
    done.
  - unfold predict_batch. intros [-> | ->]; [done|].
    by destruct (is_loaded self).
  - intros m preds probs i t e Hl Hm Hpreds Hprobs Hi Hbad.
    unfold predict_batch. rewrite Hl, Hm, Hpreds. simpl. rewrite Hprobs. simpl.
    by apply (predict_batch_loop_err preds probs texts 0 i [] t e).
Qed.

(** A batch whose second text cannot be labelled fails as a whole, although
    its first text alone is classified. *)
Example predict_batch_faulty_item :
  predict Toy.faulty_loaded (text_of "hola") = Ok Toy.hola_result
  /\ predict_batch Toy.faulty_loaded [text_of "hola"; text_of "muy"]
     = Err (KeyError 7)
  /\ predict_batch init [text_of "hola"; text_of "muy"]
     = Err (ValueError msg_not_loaded).
Proof. repeat split; vm_compute; reflexivity. Qed.

End Batches.

(** ** The classifier's state and its description *)

Section ModelInfo.

Import Classifier.

Lemma create_example_model_loaded env self self' :
  _create_example_model env self = (self', Ok tt) ->
  is_loaded self' = true /\ exists m, model self' = Some m.
Proof.
  unfold _create_example_model.
  destruct (fit_examples env (new_pipeline env)) as [e|fitted]; [done|].
  destruct (makedirs_dump env fitted (model_path self)) as [e|[]]; [done|].
  intros [= <-]. simpl. eauto.
Qed.

Lemma create_example_model_failed env self self' e :
  _create_example_model env self = (self', Err e) ->
  is_loaded self' = is_loaded self.
Proof.
  unfold _create_example_model.
  destruct (fit_examples env (new_pipeline env)) as [e1|fitted].
  { by intros [= <- _]. }
  destruct (makedirs_dump env fitted (model_path self)) as [e2|[]]; [|done].
  by intros [= <- _].
Qed.

(** After [load_model] returned [True] the instance is loaded and holds a
    pipeline. *)
Lemma load_model_true env self self' :
  load_model env self = (self', true) ->
  is_loaded self' = true /\ exists m, model self' = Some m.
Proof.
  unfold load_model. destruct (path_exists env (model_path self)).
  - destruct (joblib_load env (model_path self)) as [e|loaded]; [done|].
    intros [= <-]. simpl. eauto.
  - destruct (_create_example_model env self) as [s [e|[]]] eqn:Hcreate; [done|].
    intros [= <-]. by apply (create_example_model_loaded env self).
Qed.

(** After [load_model] returned [False] the flag is what it was. *)
Lemma load_model_false env self self' :
  load_model env self = (self', false) -> is_loaded self' = is_loaded self.
Proof.
  unfold load_model. destruct (path_exists env (model_path self)).
  - destruct (joblib_load env (model_path self)) as [e|loaded]; [|done].
    by intros [= <-].
  - destruct (_create_example_model env self) as [s [e|[]]] eqn:Hcreate; [|done].
    intros [= <-]. by apply (create_example_model_failed env self s e).
Qed.

(** Calls other than [load_model] leave the instance as it is. *)
Lemma run_no_load self (cs : list method) :
  forallb (fun c => negb (is_load c)) cs = true -> fst (run self cs) = self.
Proof.
  revert self. induction cs as [|c rest IH]; intros self Hcs; simpl; [done|].
  simpl in Hcs. apply andb_true_iff in Hcs as [Hc Hrest].
  destruct c; simpl in Hc; try done; simpl;
    specialize (IH self Hrest); destruct (run self rest); simpl in *; done.
Qed.

Lemma get_model_info_not_loaded self :
  is_loaded self = false ->
  get_model_info self = Ok {[ "status" := VStr "not_loaded" ]}.
Proof. intros Hl. unfold get_model_info. by rewrite Hl. Qed.

Lemma get_model_info_loaded self m n :
  is_loaded self = true -> model self = Some m ->
  pipe_tfidf_features m = Ok n ->
  get_model_info self =
    Ok (loaded_info match n with
                    | Some k => VInt k
                    | None => VStr "unknown"
                    end).
Proof.
  intros Hl Hm Hn. unfold get_model_info. rewrite Hl, Hm. simpl.
  rewrite Hn. done.
Qed.

End ModelInfo.

Section ModelInfoClaims.

Import Classifier.

Lemma load_model_describes env self self' m :
  Backend.describes_features env ->
  load_model env self = (self', true) -> model self' = Some m ->
  is_ok (pipe_tfidf_features m) = true.
Proof.
  intros [Hload Hfit]. unfold load_model.
  destruct (path_exists env (model_path self)).
  - destruct (joblib_load env (model_path self)) as [e|loaded] eqn:Hl; [done|].
    intros [= <-]. simpl. intros [= <-]. by apply (Hload (model_path self)).
  - unfold _create_example_model.
    destruct (fit_examples env (new_pipeline env)) as [e|fitted] eqn:Hf; [done|].
    destruct (makedirs_dump env fitted (model_path self)) as [e|[]]; [done|].
    intros [= <-]. simpl. intros [= <-]. by apply (Hfit (new_pipeline env)).
Qed.

(** C9. [get_model_info] answers [not_loaded] on a fresh instance and after
    a [load_model] that returned [False]; after a [load_model] that returned
    [True] it answers [loaded] with the model type, the feature count (or
    [unknown]) and the two labels; and calls that are not [load_model] leave
    its answer as it was. The artifacts and fitted pipelines of the
    environment answer the feature query. *)
Theorem get_model_info_total_idempotent (env : LoadEnv)
    (self' self : TextClassificationModel) (ok : bool) (cs : list method) :
  Backend.describes_features env ->
  load_model env init = (self', ok) ->
  forallb (fun c => negb (is_load c)) cs = true ->
  is_ok (get_model_info init) = true
  /\ is_ok (get_model_info self') = true
  /\ get_model_info init = Ok {[ "status" := VStr "not_loaded" ]}
  /\ (ok = false -> get_model_info self' = Ok {[ "status" := VStr "not_loaded" ]})
  /\ (ok = true ->
      exists v, get_model_info self' = Ok (loaded_info v) /\
                ((exists k, v = VInt k) \/ v = VStr "unknown"))
  /\ get_model_info (fst (run self cs)) = get_model_info self.
Proof.
  intros Henv Hload Hcs.
  assert (Hfailed : ok = false ->
            get_model_info self' = Ok {[ "status" := VStr "not_loaded" ]}).
  { intros ->. apply get_model_info_not_loaded.
    by rewrite (load_model_false env init self' Hload). }
  assert (Hloaded : ok = true ->
            exists v, get_model_info self' = Ok (loaded_info v) /\
                      ((exists k, v = VInt k) \/ v = VStr "unknown")).
  { intros ->. destruct (load_model_true env init self' Hload) as (Hl & m & Hm).
    pose proof (load_model_describes env init self' m Henv Hload Hm) as Hfeat.
    destruct (pipe_tfidf_features m) as [e|n] eqn:Hn; [done|].
    rewrite (get_model_info_loaded self' m n Hl Hm Hn).
    eexists. split; [reflexivity|].
    destruct n as [k|]; [left; by exists k | by right]. }
  split; [done|]. split; [|split; [done|]; split; [done|]; split; [done|]].
  - destruct ok.
    + destruct (Hloaded eq_refl) as (v & -> & _). done.
    + by rewrite (Hfailed eq_refl).
  - by rewrite run_no_load.
Qed.

Lemma toy_env_describes : Backend.describes_features Toy.toy_env.
Proof. split; [done|]. by intros p p' [= <-]. Qed.

Lemma get_model_info_total_idempotent_witness :
  is_ok (get_model_info init) = true
  /\ is_ok (get_model_info Toy.toy_loaded) = true
  /\ get_model_info init = Ok {[ "status" := VStr "not_loaded" ]}
  /\ (true = false ->
      get_model_info Toy.toy_loaded = Ok {[ "status" := VStr "not_loaded" ]})
  /\ (true = true ->
      exists v, get_model_info Toy.toy_loaded = Ok (loaded_info v) /\
                ((exists k, v = VInt k) \/ v = VStr "unknown"))
  /\ get_model_info
       (fst (run Toy.toy_loaded
               [GetModelInfo; Predict (text_of "hola"); GetModelInfo]))
     = get_model_info Toy.toy_loaded.
Proof.
  apply (get_model_info_total_idempotent Toy.toy_env Toy.toy_loaded
           Toy.toy_loaded true
           [GetModelInfo; Predict (text_of "hola"); GetModelInfo]).
  - exact toy_env_describes.
  - reflexivity.
  - reflexivity.
Defined.

(** A [load_model] that cannot read the artifact returns [False] and leaves
    the instance as it was; one that trains the example model returns
    [True]. *)
Example load_model_runs :
  load_model Toy.broken_env init = (init, false)
  /\ snd (load_model Toy.toy_env init) = true
  /\ get_model_info (fst (load_model Toy.broken_env init))
     = Ok {[ "status" := VStr "not_loaded" ]}
  /\ get_model_info (fst (load_model Toy.toy_env init))
     = Ok (loaded_info (VInt 12)).
Proof. repeat split; reflexivity. Qed.

End ModelInfoClaims.

Section InfoFields.

Import Classifier.

Lemma dom_loaded_info (v : info_value) :
  dom (loaded_info v)
  = ({[ "status"; "model_type"; "features"; "classes" ]} : gset string).
Proof.
  unfold loaded_info. rewrite !dom_insert_L, dom_singleton_L. set_solver.
Qed.

Lemma get_model_info_loaded_inv self info :
  is_loaded self = true -> get_model_info self = Ok info ->
  exists v, info = loaded_info v.
Proof.
  intros Hl. unfold get_model_info. rewrite Hl. simpl. intros H.
  apply bind_ok in H as (v & _ & [= <-]). by exists v.
Qed.

(** C10. While the instance is not loaded (a fresh instance, or one whose
    [load_model] returned [False]), [get_model_info] returns a dictionary
    whose only key is [status], with value [not_loaded]: the keys
    [model_type], [features] and [classes] are absent. The dictionary of a
    loaded instance has exactly the four keys. *)
Theorem not_loaded_info_only_status
    (before after : TextClassificationModel) (info : gmap string info_value) :
  is_loaded before = false ->
  is_loaded after = true ->
  get_model_info after = Ok info ->
  (exists info0,
      get_model_info before = Ok info0 /\
      dom info0 = ({[ "status" ]} : gset string) /\
      info0 !! "status" = Some (VStr "not_loaded") /\
      info0 !! "model_type" = None /\
      info0 !! "features" = None /\
      info0 !! "classes" = None)
  /\ dom info = ({[ "status"; "model_type"; "features"; "classes" ]} : gset string)
  /\ info !! "status" = Some (VStr "loaded")
  /\ is_Some (info !! "model_type")
  /\ is_Some (info !! "features")
  /\ is_Some (info !! "classes").
Proof.
  intros Hbefore Hafter Hinfo. split.
  - exists {[ "status" := VStr "not_loaded" ]}.
    split; [by apply get_model_info_not_loaded|].
    split; [by rewrite dom_singleton_L|]. done.
  - destruct (get_model_info_loaded_inv after info Hafter Hinfo) as [v ->].
    split; [apply dom_loaded_info|].
    unfold loaded_info. repeat split; by simplify_map_eq.
Qed.

Lemma not_loaded_info_only_status_witness :
  (exists info0,
      get_model_info init = Ok info0 /\
      dom info0 = ({[ "status" ]} : gset string) /\
      info0 !! "status" = Some (VStr "not_loaded") /\
      info0 !! "model_type" = None /\
      info0 !! "features" = None /\
      info0 !! "classes" = None)
  /\ dom (loaded_info (VInt 12))
     = ({[ "status"; "model_type"; "features"; "classes" ]} : gset string)
  /\ loaded_info (VInt 12) !! "status" = Some (VStr "loaded")
  /\ is_Some (loaded_info (VInt 12) !! "model_type")
  /\ is_Some (loaded_info (VInt 12) !! "features")
  /\ is_Some (loaded_info (VInt 12) !! "classes").
Proof.
  apply (not_loaded_info_only_status init Toy.toy_loaded (loaded_info (VInt 12))).
  - reflexivity.
  - reflexivity.
  - reflexivity.
Defined.

End InfoFields.

(** ** The endpoints *)

Section Endpoints.

Import Classifier Service.

(** C8. [health_check] on an instance that is not loaded answers, without
    raising, [unhealthy] with [model_loaded] false and the [not_loaded]
    dictionary. Whenever it answers, [model_loaded] is the comparison of the
    [status] entry of the model information with [loaded], and the status is
    [healthy] exactly when [model_loaded] is true, [unhealthy] otherwise. *)
Theorem health_check_reports (self : TextClassificationModel) :
  (is_loaded self = false ->
   health_check self =
     Response {| status := "unhealthy"; model_loaded := false;
                 model_info := {[ "status" := VStr "not_loaded" ]} |})
  /\ (forall h, health_check self = Response h ->
        Classifier.get_model_info self = Ok (model_info h) /\
        model_loaded h
        = bool_decide (model_info h !! "status" = Some (VStr "loaded")) /\
        (status h = "healthy"%string <-> model_loaded h = true) /\
        (status h = "unhealthy"%string <-> model_loaded h = false) /\
        model_loaded h = is_loaded self).
Proof.
  split.
  - intros Hl. unfold health_check.
    by rewrite (get_model_info_not_loaded self Hl).
  - intros h. unfold health_check.
    destruct (Classifier.get_model_info self) as [e|info] eqn:Hinfo; [done|].
    intros [= <-]. simpl. split; [done|]. split; [done|].
    assert (bool_decide (info !! "status" = Some (VStr "loaded")) = is_loaded self)
      as ->.
    { destruct (is_loaded self) eqn:Hl.
      - destruct (get_model_info_loaded_inv self info Hl Hinfo) as [v ->].
        apply bool_decide_eq_true. unfold loaded_info. by simplify_map_eq.
      - rewrite (get_model_info_not_loaded self Hl) in Hinfo.
        injection Hinfo as <-. apply bool_decide_eq_false. by simplify_map_eq. }
    destruct (is_loaded self); done.
Qed.

(** C3, as stated, fails: on a fresh instance, which is not loaded, the
    request for a valid text is answered with status 400 and the message of
    the not-loaded error, not with status 500. *)
Lemma not_ready_status_counterexample :
  Validation.TextInput (text_of "hola") = Ok (text_of "hola")
  /\ post_predict init (text_of "hola")
     = HTTPException 400 "Modelo no cargado. Llama a load_model() primero."
  /\ post_predict init (text_of "hola")
     <> HTTPException 500 "Error interno al procesar la predicción".
Proof.
  split; [vm_compute; reflexivity|].
  split; [vm_compute; reflexivity|].
  vm_compute. discriminate.
Qed.

(** C3, amended. When the classifier is not loaded, a request for a valid
    text is answered with status 400 and the message of the not-loaded error:
    the error is a [ValueError], and the endpoint answers every [ValueError]
    with 400; it answers 500 for the exceptions that are not. *)
Theorem not_ready_is_bad_request (self : TextClassificationModel)
    (raw input_text : pystr) :
  Validation.TextInput raw = Ok input_text ->
  is_loaded self = false \/ model self = None ->
  predict self input_text = Err (ValueError msg_not_loaded)
  /\ post_predict self raw = HTTPException HTTP_400_BAD_REQUEST msg_not_loaded
  /\ (forall e : pyexn, is_ValueError e = false ->
        handle (A := PredictionResponse)
          "Error interno al procesar la predicción" e
        = HTTPException HTTP_500_INTERNAL_SERVER_ERROR
            "Error interno al procesar la predicción").
Proof.
  intros Hvalid Hnot.
  assert (Hp : predict self input_text = Err (ValueError msg_not_loaded)).
  { unfold predict. destruct Hnot as [-> | ->]; [done|].
    by destruct (is_loaded self). }
  split; [done|]. split.
  - unfold post_predict, predict_text. by rewrite Hvalid, Hp.
  - intros e He. by destruct e.
Qed.

Lemma not_ready_is_bad_request_witness :
  predict init (text_of "hola") = Err (ValueError msg_not_loaded)
  /\ post_predict init (text_of " hola ")
     = HTTPException HTTP_400_BAD_REQUEST msg_not_loaded
  /\ (forall e : pyexn, is_ValueError e = false ->
        handle (A := PredictionResponse)
          "Error interno al procesar la predicción" e
        = HTTPException HTTP_500_INTERNAL_SERVER_ERROR
            "Error interno al procesar la predicción").
Proof.
  apply (not_ready_is_bad_request init (text_of " hola ") (text_of "hola")).
  - vm_compute. reflexivity.
  - left. reflexivity.
Defined.

End Endpoints.

(** * Further properties of the code *)

(** ** What validation accepts *)

Section AcceptedTexts.

Import Validation.

Lemma lstrip_split (s : pystr) :
  exists pre, s = pre ++ lstrip s /\ all_space pre.
Proof.
  induction s as [|c rest (pre & Heq & Hpre)]; simpl.
  - exists []. split; [done|constructor].
  - destruct (is_space c) eqn:Hc.
    + exists (c :: pre). split; [simpl; by rewrite <- Heq | by constructor].
    + exists []. split; [done|constructor].
Qed.

Lemma rstrip_split (s : pystr) :
  exists post, s = rstrip s ++ post /\ all_space post.
Proof.
  induction s as [|c rest (post & Heq & Hpost)]; simpl.
  - exists []. split; [done|constructor].
  - destruct (is_space c && is_nil (rstrip rest)) eqn:Hdrop.
    + apply andb_true_iff in Hdrop as [Hc Hnil]. apply is_nil_true in Hnil.
      rewrite Hnil in Heq. simpl in Heq. subst rest.
      exists (c :: post). split; [done | by constructor].
    + exists post. split; [simpl; by rewrite <- Heq | done].
Qed.

Lemma rstrip_last (s : pystr) (c : N) :
  last (rstrip s) = Some c -> is_space c = false.
Proof.
  induction s as [|c0 rest IH]; simpl; [done|].
  destruct (is_space c0 && is_nil (rstrip rest)) eqn:Hdrop; [done|].
  destruct (rstrip rest) as [|k kept] eqn:Hkept.
  - simpl. intros [= <-]. simpl in Hdrop. by rewrite andb_true_r in Hdrop.
  - intros Hlast. apply IH. exact Hlast.
Qed.

Lemma strip_head (s : pystr) (c : N) :
  head (strip s) = Some c -> is_space c = false.
Proof.
  unfold strip.
  destruct (lstrip_head s) as [-> | (c0 & rest & -> & Hc0)]; [done|].
  rewrite (rstrip_cons_keep _ _ Hc0). simpl. by intros [= <-].
Qed.

(** The trimmed text sits in the text between two runs of whitespace. *)
Lemma strip_split (s : pystr) :
  exists pre post, s = pre ++ strip s ++ post /\ all_space pre /\ all_space post.
Proof.
  destruct (lstrip_split s) as (pre & Hs & Hpre).
  destruct (rstrip_split (lstrip s)) as (post & Hl & Hpost).
  exists pre, post. unfold strip. by rewrite <- Hl.
Qed.

Lemma TextInput_ok_inv (raw t : pystr) :
  TextInput raw = Ok t -> 1 <= len raw <= 5000 /\ strip raw <> [] /\ t = strip raw.
Proof.
  unfold TextInput, field_length.
  destruct (Z.ltb_spec (len raw) 1); [done|].
  destruct (Z.ltb_spec 5000 (len raw)); [done|]. simpl.
  unfold validate_text. destruct (is_nil (strip raw)) eqn:Hnil; [done|].
  intros [= <-]. apply is_nil_false in Hnil. repeat split; done || lia.
Qed.

(** X1. The text [TextInput] hands to the endpoint is the received text
    without the whitespace around it, and nothing else is removed: it starts
    and ends with a character that is not whitespace, has between 1 and 5000
    characters, and validating it again gives it back unchanged. *)
Theorem TextInput_accepts_trimmed (raw t : pystr) :
  TextInput raw = Ok t ->
  (exists pre post, raw = pre ++ t ++ post /\ all_space pre /\ all_space post)
  /\ (forall c, head t = Some c -> is_space c = false)
  /\ (forall c, last t = Some c -> is_space c = false)
  /\ 1 <= len t <= 5000
  /\ TextInput t = Ok t.
Proof.
  intros Hok. apply TextInput_ok_inv in Hok as (Hlen & Hne & ->).
  pose proof (len_strip raw). pose proof (strip_nonempty_len _ Hne).
  split; [apply strip_split|].
  split; [apply strip_head|].
  split; [intros c; apply rstrip_last|].
  split; [lia|].
  rewrite <- (strip_idemp raw) at 2.
  apply TextInput_ok; rewrite ?strip_idemp; [lia|done].
Qed.

Lemma TextInput_accepts_trimmed_witness :
  (exists pre post,
      text_of "  muy bueno " = pre ++ text_of "muy bueno" ++ post
      /\ all_space pre /\ all_space post)
  /\ (forall c, head (text_of "muy bueno") = Some c -> is_space c = false)
  /\ (forall c, last (text_of "muy bueno") = Some c -> is_space c = false)
  /\ 1 <= len (text_of "muy bueno") <= 5000
  /\ TextInput (text_of "muy bueno") = Ok (text_of "muy bueno").
Proof.
  apply (TextInput_accepts_trimmed (text_of "  muy bueno ") (text_of "muy bueno")).
  vm_compute. reflexivity.
Defined.

Lemma validate_texts_loop_ok_inv (v acc ts : list pystr) :
  validate_texts_loop v acc = Ok ts ->
  Forall valid_item v /\ ts = acc ++ (strip <$> v).
Proof.
  revert acc. induction v as [|t rest IH]; intros acc; simpl.
  - intros [= <-]. split; [constructor | by rewrite app_nil_r].
  - destruct (validate_texts_item t) as [e|cleaned] eqn:Hitem; [done|]. simpl.
    apply validate_texts_item_inv in Hitem as [Hvalid ->].
    intros Hloop. apply IH in Hloop as [Hrest ->].
    split; [by constructor | by rewrite <- app_assoc].
Qed.

Lemma validate_texts_loop_err_inv (v acc : list pystr) e :
  validate_texts_loop v acc = Err e ->
  exists pre bad post,
    v = pre ++ bad :: post /\ Forall valid_item pre /\
    validate_texts_item bad = Err e.
Proof.
  revert acc. induction v as [|t rest IH]; intros acc; simpl; [done|].
  destruct (validate_texts_item t) as [e0|cleaned] eqn:Hitem; simpl.
  - intros [= <-]. exists [], t, rest. split; [done|]. split; [constructor|done].
  - intros Hloop. apply IH in Hloop as (pre & bad & post & -> & Hpre & Hbad).
    exists (t :: pre), bad, post. split; [done|]. split; [|done].
    constructor; [|done]. by apply validate_texts_item_inv in Hitem as [? _].
Qed.

Lemma field_items_inv {A : Type} lo hi (v v' : list A) :
  field_items lo hi v = Ok v' -> lo <= len v <= hi /\ v' = v.
Proof.
  unfold field_items.
  destruct (Z.ltb_spec (len v) lo); [done|].
  destruct (Z.ltb_spec hi (len v)); [done|].
  intros [= <-]. split; [lia|done].
Qed.

Lemma BatchTextInput_ok_inv (v ts : list pystr) :
  BatchTextInput v = Ok ts ->
  1 <= len v <= 100 /\ Forall valid_item v /\ ts = strip <$> v.
Proof.
  unfold BatchTextInput. intros H.
  destruct (field_items 1 100 v) as [e|v'] eqn:Hfield; [done|]. simpl in H.
  apply field_items_inv in Hfield as [Hlen ->].
  unfold validate_texts in H. destruct (is_nil v); [done|].
  apply validate_texts_loop_ok_inv in H as [Hall ->]. done.
Qed.

(** X2. [BatchTextInput] accepts a list exactly when it has between 1 and 100
    texts, each of them not blank and of at most 5000 characters before
    trimming; the accepted value is the list of the trimmed texts, in the
    same order. *)
Theorem BatchTextInput_accepts (v ts : list pystr) :
  BatchTextInput v = Ok ts <->
  1 <= len v <= 100 /\ Forall valid_item v /\ ts = strip <$> v.
Proof.
  split.
  - apply BatchTextInput_ok_inv.
  - intros (Hlen & Hall & ->). by apply BatchTextInput_ok.
Qed.

(** X3. The single-text schema and the loop of the batch schema accept the
    same texts and clean them to the same value, although they run their
    checks in different orders; so a text is accepted alone in a batch
    exactly when it is accepted as a single text. *)
Theorem single_and_batch_accept_the_same (t cleaned : pystr) :
  (TextInput t = Ok cleaned <-> validate_texts_item t = Ok cleaned)
  /\ (TextInput t = Ok cleaned <-> BatchTextInput [t] = Ok [cleaned]).
Proof.
  assert (Hitem : TextInput t = Ok cleaned <-> validate_texts_item t = Ok cleaned).
  { split.
    - intros H. apply TextInput_ok_inv in H as (Hlen & Hne & ->).
      apply validate_texts_item_ok. split; [done|lia].
    - intros H. apply validate_texts_item_inv in H as [[Hne Hlen] ->].
      by apply TextInput_ok. }
  split; [done|]. rewrite Hitem. split.
  - intros H. apply validate_texts_item_inv in H as [Hvalid ->].
    apply (BatchTextInput_ok [t]); [by vm_compute | by constructor].
  - intros H. apply BatchTextInput_ok_inv in H as (_ & Hall & [= ->]).
    apply validate_texts_item_ok. by apply Forall_inv in Hall.
Qed.

(** X4. What [BatchTextInput] reports when it rejects a list: the list is
    empty, or has more than 100 texts, or it is within the limits and holds a
    text that is blank or longer than 5000 characters. The two other messages
    of [validate_texts], for an empty list and for an element that is not a
    string, are never reported. *)
Theorem BatchTextInput_rejections (v : list pystr) (e : validation_error) :
  BatchTextInput v = Err e ->
  ((e = min_items_error 1 /\ v = [])
   \/ (e = max_items_error 100 /\ 100 < len v)
   \/ (1 <= len v <= 100 /\
       exists bad, bad ∈ v /\ ~ valid_item bad /\
         (e = validator_error msg_item_empty
          \/ e = validator_error msg_item_too_long)))
  /\ e <> validator_error msg_list_empty
  /\ e <> validator_error msg_not_strings.
Proof.
  intros H.
  assert (Hcases :
    (e = min_items_error 1 /\ v = [])
    \/ (e = max_items_error 100 /\ 100 < len v)
    \/ (1 <= len v <= 100 /\
        exists bad, bad ∈ v /\ ~ valid_item bad /\
          (e = validator_error msg_item_empty
           \/ e = validator_error msg_item_too_long))).
  { unfold BatchTextInput, field_items in H.
    destruct (Z.ltb_spec (len v) 1) as [Hshort|Hmin].
    { left. injection H as <-. split; [done|].
      destruct v; [done|]. unfold len in Hshort. simpl in Hshort. lia. }
    destruct (Z.ltb_spec 100 (len v)) as [Hlong|Hmax].
    { right. left. injection H as <-. done. }
    right. right. split; [lia|]. simpl in H. unfold validate_texts in H.
    destruct (is_nil v) eqn:Hnil.
    { apply is_nil_true in Hnil. subst v. unfold len in Hmin. simpl in Hmin. lia. }
    apply validate_texts_loop_err_inv in H as (pre & bad & post & -> & _ & Hbad).
    exists bad. split; [set_solver|]. split.
    - intros Hvalid. by rewrite (validate_texts_item_ok _ Hvalid) in Hbad.
    - unfold validate_texts_item in Hbad.
      destruct (is_nil (strip bad)); [left; congruence|].
      destruct (5000 <? len bad); [right; congruence|done]. }
  split; [exact Hcases|].
  destruct Hcases as [[-> _] | [[-> _] | (_ & bad & _ & _ & [-> | ->])]];
    split; discriminate.
Qed.

Lemma BatchTextInput_rejections_witness :
  ((validator_error msg_item_empty = min_items_error 1
    /\ [text_of "hola"; text_of "   "] = [])
   \/ (validator_error msg_item_empty = max_items_error 100
       /\ 100 < len [text_of "hola"; text_of "   "])
   \/ (1 <= len [text_of "hola"; text_of "   "] <= 100 /\
       exists bad, bad ∈ [text_of "hola"; text_of "   "] /\ ~ valid_item bad /\
         (validator_error msg_item_empty = validator_error msg_item_empty
          \/ validator_error msg_item_empty
             = validator_error msg_item_too_long)))
  /\ validator_error msg_item_empty <> validator_error msg_list_empty
  /\ validator_error msg_item_empty <> validator_error msg_not_strings.
Proof.
  apply (BatchTextInput_rejections [text_of "hola"; text_of "   "]
           (validator_error msg_item_empty)).
  vm_compute. reflexivity.
Defined.

End AcceptedTexts.

(** ** What a prediction looks like, whatever the pipeline *)

Section PredictionShape.

Import Classifier.

(** [max_from] bounds the value it started from and the values it went
    through, and is one of them. *)
Lemma max_from_spec (rest : list Q) :
  forall best : Q,
    (best <= max_from best rest)%Q /\
    Forall (fun q => (q <= max_from best rest)%Q) rest /\
    max_from best rest ∈ best :: rest.
Proof.
  induction rest as [|x rest IH]; intros best; simpl.
  - split; [apply Qle_refl|]. split; [constructor|].
    rewrite elem_of_cons. by left.
  - destruct (IH (if gt x best then x else best)) as (Hb & Hrest & Hin).
    destruct (gt x best) eqn:Hgt.
    + apply gt_true, Qlt_le_weak in Hgt.
      split; [by apply Qle_trans with x|]. split; [by constructor|].
      rewrite elem_of_cons. by right.
    + apply gt_false in Hgt.
      split; [done|]. split; [constructor; [by apply Qle_trans with best|done]|].
      apply elem_of_cons in Hin as [-> | Hin]; rewrite !elem_of_cons;
        [by left | right; by right].
Qed.

Lemma max_spec (row : list Q) (conf : Q) :
  max row = Ok conf -> conf ∈ row /\ Forall (fun q => (q <= conf)%Q) row.
Proof.
  destruct row as [|x rest]; simpl; [done|]. intros [= <-].
  destruct (max_from_spec rest x) as (Hb & Hrest & Hin).
  split; [done | by constructor].
Qed.

Lemma dom_pair_dict (p0 p1 : Q) :
  dom ({[ "negativo" := p0; "positivo" := p1 ]} : gmap string Q)
  = ({[ "negativo"; "positivo" ]} : gset string).
Proof. by rewrite dom_insert_L, dom_singleton_L. Qed.

(** X5. Whatever pipeline is loaded, a result of [predict] carries the text
    it was given, one of the two labels, and a dictionary with exactly the
    keys [negativo] and [positivo] whose values are at most the confidence:
    the confidence is the largest entry of the whole row of [predict_proba],
    of which the dictionary holds the first two. *)
Theorem predict_result_shape (self : TextClassificationModel) (t : pystr)
    (r : result) :
  predict self t = Ok r ->
  is_loaded self = true
  /\ text r = t
  /\ is_label (prediction r)
  /\ dom (probabilities r) = ({[ "negativo"; "positivo" ]} : gset string)
  /\ (forall l q, probabilities r !! l = Some q -> (q <= confidence r)%Q).
Proof.
  intros Hr.
  apply predict_ok_inv in Hr
    as (m & cs & c & rows & row & lbl & conf & p0 & p1
        & Hl & _ & _ & _ & _ & _ & Hlbl & Hconf & Hp0 & Hp1 & ->).
  simpl. split; [done|]. split; [done|].
  split; [apply label_map_ok in Hlbl as [[_ ->]|[_ ->]]; [by left | by right]|].
  split; [apply dom_pair_dict|].
  apply max_spec in Hconf as [_ Hbound].
  rewrite Forall_forall in Hbound.
  intros l q Hq.
  destruct (lookup_pair_dict _ _ _ _ Hq) as [[_ ->]|[_ ->]];
    apply Hbound; by eapply list_elem_of_lookup_2.
Qed.

Lemma predict_result_shape_witness :
  is_loaded Toy.toy_loaded = true
  /\ text Toy.muy_result = text_of "muy"
  /\ is_label (prediction Toy.muy_result)
  /\ dom (probabilities Toy.muy_result)
     = ({[ "negativo"; "positivo" ]} : gset string)
  /\ (forall l q, probabilities Toy.muy_result !! l = Some q ->
                  (q <= confidence Toy.muy_result)%Q).
Proof.
  apply (predict_result_shape Toy.toy_loaded (text_of "muy") Toy.muy_result).
  vm_compute. reflexivity.
Defined.

(** X6. For a batch of one text, [predict_batch] succeeds exactly when
    [predict] succeeds on that text, and its only result is the result of
    [predict]; this needs nothing of the pipeline, which gets the same list
    of one text from both. *)
Theorem singleton_batch_is_predict (self : TextClassificationModel) (t : pystr)
    (rs : list result) :
  predict_batch self [t] = Ok rs <-> exists r, rs = [r] /\ predict self t = Ok r.
Proof.
  unfold predict_batch, predict.
  destruct (is_loaded self); [|split; [done | by intros (r & _ & ?)]].
  destruct (model self) as [m|]; [|split; [done | by intros (r & _ & ?)]].
  destruct (pipe_predict m [t]) as [e|preds]; simpl;
    [split; [done | by intros (r & _ & ?)]|].
  unfold batch_result.
  destruct (item preds 0) as [e|c]; simpl.
  { destruct (pipe_predict_proba m [t]); simpl;
      split; done || by intros (r & _ & ?). }
  destruct (pipe_predict_proba m [t]) as [e|probs]; simpl;
    [split; [done | by intros (r & _ & ?)]|].
  destruct (label_map c) as [e|lbl]; simpl.
  { destruct (item probs 0); simpl; split; done || by intros (r & _ & ?). }
  destruct (item probs 0) as [e|row]; simpl;
    [split; [done | by intros (r & _ & ?)]|].
  destruct (max row) as [e|conf]; simpl;
    [split; [done | by intros (r & _ & ?)]|].
  destruct (item row 0) as [e|p0]; simpl;
    [split; [done | by intros (r & _ & ?)]|].
  destruct (item row 1) as [e|p1]; simpl;
    [split; [done | by intros (r & _ & ?)]|].
  split.
  - intros [= <-]. eexists. split; reflexivity.
  - intros (r & -> & [= <-]). done.
Qed.

(** X7. When the pipeline answers fewer classes or fewer rows than there are
    texts, [predict_batch] raises, and the endpoint answers with an
    [HTTPException]: no shorter list of results is returned. *)
Theorem predict_batch_short_output (self : TextClassificationModel)
    (m : Pipeline) (texts : list pystr) (preds : list Z) (probs : list (list Q)) :
  is_loaded self = true -> model self = Some m ->
  pipe_predict m texts = Ok preds ->
  pipe_predict_proba m texts = Ok probs ->
  (length preds < length texts)%nat \/ (length probs < length texts)%nat ->
  (exists e, predict_batch self texts = Err e)
  /\ (exists code detail,
        Service.predict_batch self texts = Service.HTTPException code detail).
Proof.
  intros Hl Hm Hpreds Hprobs Hshort.
  assert (Herr : exists e, predict_batch self texts = Err e).
  { set (i := Nat.min (length preds) (length probs)).
    assert (Hi : (i < length texts)%nat) by (unfold i; lia).
    destruct (lookup_lt_is_Some_2 texts i Hi) as [t Ht].
    unfold predict_batch. rewrite Hl, Hm, Hpreds. simpl. rewrite Hprobs. simpl.
    destruct (batch_result preds probs i t) as [e|r] eqn:Hb.
    - by apply (predict_batch_loop_err preds probs texts 0 i [] t e).
    - apply batch_result_ok_inv in Hb
        as (c & row & _ & _ & _ & _ & Hc & Hrow & _).
      apply lookup_lt_Some in Hc, Hrow. unfold i in *. lia. }
  split; [done|]. destruct Herr as [e He].
  unfold Service.predict_batch. rewrite He. unfold Service.handle.
  destruct e; eauto.
Qed.

Lemma predict_batch_short_output_witness :
  (exists e, predict_batch short_loaded [text_of "hola"; text_of "muy"] = Err e)
  /\ (exists code detail,
        Service.predict_batch short_loaded [text_of "hola"; text_of "muy"]
        = Service.HTTPException code detail).
Proof.
  apply (predict_batch_short_output short_loaded short_pipeline
           [text_of "hola"; text_of "muy"] [0] [[(3 # 4)%Q; (1 # 4)%Q]]).
  - reflexivity.
  - reflexivity.
  - reflexivity.
  - reflexivity.
  - left. simpl. lia.
Defined.

(** X8. For a binary probabilistic pipeline the confidence of a result lies
    between one half and one, up to the tolerance on the sum of the two
    probabilities: twice the confidence is at least [1 - tol], and the
    confidence is at most [1 + tol]. *)
Theorem confidence_range (tol : Q) (self : TextClassificationModel)
    (m : Pipeline) (t : pystr) (r : result) :
  model self = Some m ->
  Backend.probabilistic tol m ->
  predict self t = Ok r ->
  (1 - tol <= 2 * confidence r)%Q /\ (confidence r <= 1 + tol)%Q.
Proof.
  intros Hm Hback Hr.
  apply predict_ok_inv in Hr
    as (m' & cs & c & rows & row & lbl & conf & p0 & p1
        & _ & Hm' & Hcs & Hc & Hrows & Hrow & _ & Hconf & Hp0 & Hp1 & ->).
  assert (m' = m) as -> by congruence.
  destruct (Hback t cs rows c row Hcs Hrows Hc Hrow)
    as [(q0 & q1 & -> & Hq0 & Hq1 & Hsum) _].
  simpl in Hp0, Hp1. injection Hp0 as ->. injection Hp1 as ->.
  destruct (max_pair _ _ _ Hconf) as (Hone & Hle0 & Hle1).
  apply Qabs_Qle_condition in Hsum as [Hlow Hhigh].
  simpl. split; [lra|].
  destruct Hone as [-> | ->]; lra.
Qed.

Lemma confidence_range_witness :
  (1 - Toy.tolerance <= 2 * confidence Toy.hola_result)%Q
  /\ (confidence Toy.hola_result <= 1 + Toy.tolerance)%Q.
Proof.
  apply (confidence_range Toy.tolerance Toy.toy_loaded Toy.toy_pipeline
           (text_of "hola") Toy.hola_result).
  - reflexivity.
  - exact toy_probabilistic.
  - vm_compute. reflexivity.
Defined.

End PredictionShape.

(** ** The batch endpoint and the endpoints of a service that is not ready *)

Section BatchEndpoint.

Import Validation Classifier Service.

(** X9. A 200 answer of [POST /predict/batch] has one result per text of the
    request, in the order of the request; [total_processed] is the number of
    texts sent, between 1 and 100; each result carries the trimmed form of
    its text and one of the two labels. *)
Theorem batch_response_matches_request (self : TextClassificationModel)
    (raw : list pystr) (b : BatchPredictionResponse) :
  post_predict_batch self raw = Response b ->
  total_processed b = len raw
  /\ length (results b) = length raw
  /\ 1 <= len raw <= 100
  /\ forall (i : nat) (t : pystr), raw !! i = Some t ->
       exists p, results b !! i = Some p /\ resp_text p = strip t /\
                 is_label (resp_prediction p).
Proof.
  unfold post_predict_batch.
  destruct (BatchTextInput raw) as [e|ts] eqn:Hvalid; [done|].
  apply BatchTextInput_ok_inv in Hvalid as (Hlen & _ & ->).
  unfold Service.predict_batch.
  destruct (Classifier.predict_batch self (strip <$> raw)) as [e|rs] eqn:Hrs.
  { unfold handle. by destruct e. }
  intros [= <-]. simpl.
  apply predict_batch_ok_inv in Hrs as (m & preds & probs & _ & _ & _ & _ & Hloop).
  apply predict_batch_loop_ok in Hloop as (rs' & -> & Hlen' & Hitems).
  simpl. rewrite length_fmap in Hlen'.
  split; [unfold len; by rewrite Hlen'|].
  split; [by rewrite length_fmap|].
  split; [done|].
  intros i t Hi.
  destruct (Hitems i (strip t)) as (r & Hr & Hb).
  { by rewrite list_lookup_fmap, Hi. }
  exists (to_response r). split; [by rewrite list_lookup_fmap, Hr|].
  apply batch_result_ok_inv in Hb
    as (c & row & lbl & conf & p0 & p1 & _ & _ & Hlbl & _ & _ & _ & ->).
  simpl. split; [done|].
  apply label_map_ok in Hlbl as [[_ ->]|[_ ->]]; [by left | by right].
Qed.

Lemma batch_response_matches_request_witness :
  total_processed
    {| results := to_response <$> [Toy.hola_result; Toy.muy_result];
       total_processed := 2 |}
  = len [text_of " hola "; text_of "muy"]
  /\ length (results
       {| results := to_response <$> [Toy.hola_result; Toy.muy_result];
          total_processed := 2 |})
     = length [text_of " hola "; text_of "muy"]
  /\ 1 <= len [text_of " hola "; text_of "muy"] <= 100
  /\ forall (i : nat) (t : pystr),
       [text_of " hola "; text_of "muy"] !! i = Some t ->
       exists p,
         results
           {| results := to_response <$> [Toy.hola_result; Toy.muy_result];
              total_processed := 2 |} !! i = Some p
         /\ resp_text p = strip t /\ is_label (resp_prediction p).
Proof.
  apply (batch_response_matches_request Toy.toy_loaded
           [text_of " hola "; text_of "muy"]
           {| results := to_response <$> [Toy.hola_result; Toy.muy_result];
              total_processed := 2 |}).
  vm_compute. reflexivity.
Defined.

(** X10. While the instance is not loaded, [POST /predict/batch] answers a
    valid request with status 400 and the message of the not-loaded error,
    and [GET /model/info] answers 200 with the [not_loaded] dictionary. *)
Theorem not_ready_batch_and_info (self : TextClassificationModel)
    (raw ts : list pystr) :
  is_loaded self = false ->
  BatchTextInput raw = Ok ts ->
  post_predict_batch self raw = HTTPException HTTP_400_BAD_REQUEST msg_not_loaded
  /\ Service.get_model_info self = Response {[ "status" := VStr "not_loaded" ]}.
Proof.
  intros Hl Hvalid. split.
  - unfold post_predict_batch. rewrite Hvalid.
    unfold Service.predict_batch, Classifier.predict_batch. by rewrite Hl.
  - unfold Service.get_model_info.
    by rewrite (get_model_info_not_loaded self Hl).
Qed.

Lemma not_ready_batch_and_info_witness :
  post_predict_batch init [text_of " hola "; text_of "muy"]
  = HTTPException HTTP_400_BAD_REQUEST msg_not_loaded
  /\ Service.get_model_info init = Response {[ "status" := VStr "not_loaded" ]}.
Proof.
  apply (not_ready_batch_and_info init [text_of " hola "; text_of "muy"]
           [text_of "hola"; text_of "muy"]).
  - reflexivity.
  - vm_compute. reflexivity.
Defined.

End BatchEndpoint.

(** ** Loading and the start of the application *)

Section Loading.

Import Validation Classifier Service.

(** The pipeline held after a successful [load_model] was read from disk or
    came out of [fit]. *)
Lemma load_model_source env self self' m :
  load_model env self = (self', true) -> model self' = Some m ->
  (exists path, joblib_load env path = Ok m)
  \/ (exists p0, fit_examples env p0 = Ok m).
Proof.
  unfold load_model. destruct (path_exists env (model_path self)).
  - destruct (joblib_load env (model_path self)) as [e|loaded] eqn:Hload; [done|].
    intros [= <-]. simpl. intros [= <-]. left. by exists (model_path self).
  - unfold _create_example_model.
    destruct (fit_examples env (new_pipeline env)) as [e|fitted] eqn:Hfit; [done|].
    destruct (makedirs_dump env fitted (model_path self)) as [e|[]]; [done|].
    intros [= <-]. simpl. intros [= <-]. right. by exists (new_pipeline env).
Qed.

(** [predict] on a binary pipeline. *)
Lemma predict_binary self proba features (t : pystr) :
  is_loaded self = true ->
  model self = Some (Backend.binary_pipeline proba features) ->
  exists r, predict self t = Ok r /\ text r = t /\ is_label (prediction r).
Proof.
  intros Hl Hm. unfold predict. rewrite Hl, Hm. simpl.
  destruct (gt (proba t) (1 # 2)); simpl; eexists;
    (split; [reflexivity|]); simpl; (split; [done|]); [by right | by left].
Qed.

(** The loop of [predict_batch] on the answers of a binary pipeline for the
    texts [done_ ++ texts], started after [done_]. *)
Lemma predict_batch_loop_binary proba (texts : list pystr) :
  forall (done_ : list pystr) (acc : list result),
    exists rs,
      predict_batch_loop
        ((fun t => if gt (proba t) (1 # 2) then 1 else 0) <$> (done_ ++ texts))
        ((fun t => [1 - proba t; proba t]%Q) <$> (done_ ++ texts))
        (length done_) texts acc = Ok rs.
Proof.
  induction texts as [|t rest IH]; intros done_ acc; simpl; [by eexists|].
  unfold batch_result, item.
  rewrite !list_lookup_fmap, list_lookup_middle by done. simpl.
  assert (done_ ++ t :: rest = (done_ ++ [t]) ++ rest) as -> by by rewrite <- app_assoc.
  assert (S (length done_) = length (done_ ++ [t])) as ->
    by (rewrite length_app; simpl; lia).
  destruct (gt (proba t) (1 # 2)); simpl; apply IH.
Qed.

Lemma predict_batch_binary self proba features (texts : list pystr) :
  is_loaded self = true ->
  model self = Some (Backend.binary_pipeline proba features) ->
  exists rs, Classifier.predict_batch self texts = Ok rs.
Proof.
  intros Hl Hm. unfold Classifier.predict_batch. rewrite Hl, Hm. simpl.
  apply (predict_batch_loop_binary proba texts [] []).
Qed.

(** X11. When [lifespan] lets the application start on a fresh instance, and
    the artifacts and fitted pipelines of the environment are binary
    classifiers, the service is ready: the instance is loaded, [GET /health]
    answers [healthy], every valid single request gets a 200 answer with the
    trimmed text and one of the two labels, and every valid batch request
    gets a 200 answer counting all its texts. *)
Theorem startup_makes_ready (env : LoadEnv) (s : TextClassificationModel) :
  binary_env env ->
  Startup.lifespan env init = (s, Ok tt) ->
  is_loaded s = true
  /\ (exists v,
        health_check s =
          Response {| status := "healthy"; model_loaded := true;
                      model_info := loaded_info v |})
  /\ (forall raw t, TextInput raw = Ok t ->
        exists b, post_predict s raw = Response b /\ resp_text b = t /\
                  is_label (resp_prediction b))
  /\ (forall raw ts, BatchTextInput raw = Ok ts ->
        exists b, post_predict_batch s raw = Response b /\
                  total_processed b = len raw).
Proof.
  intros Henv. unfold Startup.lifespan.
  destruct (load_model env init) as [s' ok] eqn:Hload.
  destruct ok; simpl; [|done]. intros [= ->].
  destruct (load_model_true env init s Hload) as (Hl & m & Hm).
  destruct (Henv m (load_model_source env init s m Hload Hm))
    as (proba & features & -> & Hrange).
  split; [done|]. split; [|split].
  - unfold health_check.
    rewrite (get_model_info_loaded s _ features Hl Hm eq_refl).
    eexists. unfold loaded_info at 1. simpl. reflexivity.
  - intros raw t Hvalid. unfold post_predict, predict_text. rewrite Hvalid.
    destruct (predict_binary s proba features t Hl Hm) as (r & -> & Htext & Hlabel).
    exists (to_response r). done.
  - intros raw ts Hvalid. unfold post_predict_batch. rewrite Hvalid.
    destruct (predict_batch_binary s proba features ts Hl Hm) as (rs & Hrs).
    unfold Service.predict_batch. rewrite Hrs.
    eexists. split; [reflexivity|]. simpl.
    apply BatchTextInput_ok_inv in Hvalid as (_ & _ & ->).
    apply predict_batch_ok_inv in Hrs as (m' & preds & probs & _ & _ & _ & _ & Hloop).
    apply predict_batch_loop_ok in Hloop as (rs' & -> & Hlen & _).
    simpl. unfold len. rewrite Hlen, length_fmap. done.
Qed.

End Loading.

Section LoadingStates.

Import Validation Classifier Service.

Lemma toy_env_binary : binary_env Toy.toy_env.
Proof.
  intros p [[path Hload] | [p0 Hfit]]; [done|].
  injection Hfit as <-. exists Toy.toy_proba, (Some 12). split; [done|].
  intros t. unfold Toy.toy_proba. destruct (Z.odd (len t)); split; by vm_compute.
Qed.

Lemma startup_makes_ready_witness :
  is_loaded Toy.toy_loaded = true
  /\ (exists v,
        health_check Toy.toy_loaded =
          Response {| status := "healthy"; model_loaded := true;
                      model_info := loaded_info v |})
  /\ (forall raw t, TextInput raw = Ok t ->
        exists b, post_predict Toy.toy_loaded raw = Response b /\
                  resp_text b = t /\ is_label (resp_prediction b))
  /\ (forall raw ts, BatchTextInput raw = Ok ts ->
        exists b, post_predict_batch Toy.toy_loaded raw = Response b /\
                  total_processed b = len raw).
Proof.
  apply (startup_makes_ready Toy.toy_env Toy.toy_loaded).
  - exact toy_env_binary.
  - reflexivity.
Defined.





(** X13. A [load_model] that returns [False] on an instance that is not
    loaded leaves it not loaded, even when it leaves a pipeline in
    [self.model]: [predict] and [predict_batch] keep raising the not-loaded
    error, [get_model_info] keeps answering [not_loaded], and [lifespan]
    raises its [RuntimeError] instead of letting the application start. *)
Theorem failed_load_stays_unready (env : LoadEnv)
    (self self' : TextClassificationModel) :
  is_loaded self = false ->
  load_model env self = (self', false) ->
  is_loaded self' = false
  /\ (forall t, predict self' t = Err (ValueError msg_not_loaded))
  /\ (forall ts, Classifier.predict_batch self' ts = Err (ValueError msg_not_loaded))
  /\ Classifier.get_model_info self' = Ok {[ "status" := VStr "not_loaded" ]}
  /\ Startup.lifespan env self
     = (self', Err (OtherException Startup.msg_startup)).
Proof.
  intros Hl Hload.
  assert (Hl' : is_loaded self' = false)
    by (by rewrite (load_model_false env self self' Hload)).
  split; [done|]. split; [|split; [|split]].
  - intros t. unfold predict. by rewrite Hl'.
  - intros ts. unfold Classifier.predict_batch. by rewrite Hl'.
  - by apply get_model_info_not_loaded.
  - unfold Startup.lifespan. by rewrite Hload.
Qed.

Lemma failed_load_stays_unready_witness :
  is_loaded half_built = false
  /\ (forall t, predict half_built t = Err (ValueError msg_not_loaded))
  /\ (forall ts,
        Classifier.predict_batch half_built ts = Err (ValueError msg_not_loaded))
  /\ Classifier.get_model_info half_built = Ok {[ "status" := VStr "not_loaded" ]}
  /\ Startup.lifespan failing_fit_env init
     = (half_built, Err (OtherException Startup.msg_startup)).
Proof.
  apply (failed_load_stays_unready failing_fit_env init half_built).
  - reflexivity.
  - reflexivity.
Defined.

End LoadingStates.

(** ** The artifact on disk *)

Section Artifact.

Import Classifier Disk.


(** X14. On a disk without the artifact, a [load_model] that returns [True]
    has trained the example model and saved it under the model path, and
    nothing else on disk has changed; from then on a fresh instance loads
    that very pipeline from the file, without training and without writing,
    whatever training or writing would do. *)
Theorem bootstrap_then_reload (w w1 : World) (s1 : TextClassificationModel) :
  files w !! model_path init = None ->
  load_model_on w init = (w1, s1, true) ->
  exists p,
    fit w (unfitted w) = Ok p
    /\ s1 = {| model := Some p; is_loaded := true;
               model_path := model_path init |}
    /\ files w1 = <[model_path init := Pickled p]> (files w)
    /\ forall w2, files w2 = files w1 -> load_model_on w2 init = (w2, s1, true).
Proof.
  intros Hnone. unfold load_model_on, exists_path. rewrite Hnone.
  unfold create_example_model_on.
  destruct (fit w (unfitted w)) as [e|fitted]; [done|].
  unfold dump. destruct (writable w); [|done].
  intros [= <- <-]. exists fitted. simpl. repeat split.
  intros w2 Hfiles. unfold load. rewrite Hfiles.
  by rewrite lookup_insert_eq.
Qed.

Lemma bootstrap_then_reload_witness :
  exists p,
    fit empty_world (unfitted empty_world) = Ok p
    /\ Toy.toy_loaded = {| model := Some p; is_loaded := true;
                           model_path := model_path init |}
    /\ files (fst (fst (load_model_on empty_world init)))
       = <[model_path init := Pickled p]> (files empty_world)
    /\ forall w2, files w2 = files (fst (fst (load_model_on empty_world init))) ->
         load_model_on w2 init = (w2, Toy.toy_loaded, true).
Proof.
  apply (bootstrap_then_reload empty_world
           (fst (fst (load_model_on empty_world init))) Toy.toy_loaded).
  - reflexivity.
  - reflexivity.
Defined.



End Artifact.

(** ** What the endpoints answer *)

Section Answers.

Import Validation Classifier Service.

(** X16. [GET /health] and [GET /model/info] read the same dictionary: one
    answers 200 exactly when the other does, the [model_info] of the health
    answer is then the body of the other, and when [get_model_info] of the
    classifier raises they answer 503 and 500. *)
Theorem health_and_info_agree (self : TextClassificationModel) :
  (forall info,
      Service.get_model_info self = Response info <->
      exists h, health_check self = Response h /\ model_info h = info)
  /\ ((exists detail,
         Service.get_model_info self
         = HTTPException HTTP_500_INTERNAL_SERVER_ERROR detail) <->
      (exists detail,
         health_check self = HTTPException HTTP_503_SERVICE_UNAVAILABLE detail))
  /\ ((exists e, Classifier.get_model_info self = Err e) <->
      (exists detail,
         health_check self = HTTPException HTTP_503_SERVICE_UNAVAILABLE detail)).
Proof.
  unfold Service.get_model_info, health_check.
  destruct (Classifier.get_model_info self) as [e|info0]; split.
  - intros info. split; [done | by intros (h & ? & _)].
  - split; (split; intros _; eauto).
  - intros info. split.
    + intros [= <-]. eexists. split; reflexivity.
    + by intros (h & [= <-] & <-).
  - split; (split; intros [? ?]; done).
Qed.

(** X17. A 200 answer of [POST /predict] carries the trimmed form of the
    text sent, which has between 1 and 5000 characters, one of the two
    labels, and a probability dictionary with exactly the two labels as keys,
    none of whose values exceeds the confidence. *)
Theorem single_response_matches_request (self : TextClassificationModel)
    (raw : pystr) (b : PredictionResponse) :
  post_predict self raw = Response b ->
  resp_text b = strip raw
  /\ 1 <= len (resp_text b) <= 5000
  /\ is_label (resp_prediction b)
  /\ dom (resp_probabilities b) = ({[ "negativo"; "positivo" ]} : gset string)
  /\ (forall l q, resp_probabilities b !! l = Some q -> (q <= resp_confidence b)%Q).
Proof.
  unfold post_predict.
  destruct (TextInput raw) as [e|t] eqn:Hvalid; [done|].
  apply TextInput_ok_inv in Hvalid as (Hlen & Hne & ->).
  unfold predict_text.
  destruct (predict self (strip raw)) as [e|r] eqn:Hr; [unfold handle; by destruct e|].
  intros [= <-].
  apply predict_ok_inv in Hr
    as (m & cs & c & rows & row & lbl & conf & p0 & p1
        & _ & _ & _ & _ & _ & _ & Hlbl & Hconf & Hp0 & Hp1 & ->).
  simpl. split; [done|].
  pose proof (len_strip raw). pose proof (strip_nonempty_len _ Hne).
  split; [lia|].
  split; [apply label_map_ok in Hlbl as [[_ ->]|[_ ->]]; [by left | by right]|].
  split; [apply dom_pair_dict|].
  apply max_spec in Hconf as [_ Hbound].
  rewrite Forall_forall in Hbound.
  intros l q Hq.
  destruct (lookup_pair_dict _ _ _ _ Hq) as [[_ ->]|[_ ->]];
    apply Hbound; by eapply list_elem_of_lookup_2.
Qed.

Lemma single_response_matches_request_witness :
  resp_text (to_response Toy.hola_result) = strip (text_of "  hola ")
  /\ 1 <= len (resp_text (to_response Toy.hola_result)) <= 5000
  /\ is_label (resp_prediction (to_response Toy.hola_result))
  /\ dom (resp_probabilities (to_response Toy.hola_result))
     = ({[ "negativo"; "positivo" ]} : gset string)
  /\ (forall l q, resp_probabilities (to_response Toy.hola_result) !! l = Some q ->
                  (q <= resp_confidence (to_response Toy.hola_result))%Q).
Proof.
  apply (single_response_matches_request Toy.toy_loaded (text_of "  hola ")
           (to_response Toy.hola_result)).
  vm_compute. reflexivity.
Defined.

(** X18. When one of the two prediction endpoints raises an [HTTPException]
    for a request, the status is 400 or 500. A 500 answer carries the fixed
    detail of its endpoint and nothing of the exception. A 400 answer comes
    from a [ValueError] raised by the classifier for the validated request,
    and its detail is the message of that error as it is. *)
Theorem prediction_error_details (self : TextClassificationModel)
    (raw : pystr) (raws : list pystr) (code : Z) (detail : string) :
  post_predict self raw = HTTPException code detail
  \/ post_predict_batch self raws = HTTPException code detail ->
  (code = 500 /\
   (detail = "Error interno al procesar la predicción"%string
    \/ detail = "Error interno al procesar la predicción en lote"%string))
  \/ (code = 400 /\
      ((exists t, TextInput raw = Ok t /\ predict self t = Err (ValueError detail))
       \/ (exists ts, BatchTextInput raws = Ok ts /\
             Classifier.predict_batch self ts = Err (ValueError detail)))).
Proof.
  intros [Hsingle | Hbatch].
  - unfold post_predict in Hsingle.
    destruct (TextInput raw) as [e|t] eqn:Hvalid; [done|].
    unfold predict_text in Hsingle.
    destruct (predict self t) as [e|r] eqn:Hr; [|done].
    unfold handle in Hsingle.
    destruct e; injection Hsingle as <- <-;
      try (left; split; [done | by left]).
    right. split; [done|]. left. by exists t.
  - unfold post_predict_batch in Hbatch.
    destruct (BatchTextInput raws) as [e|ts] eqn:Hvalid; [done|].
    unfold Service.predict_batch in Hbatch.
    destruct (Classifier.predict_batch self ts) as [e|rs] eqn:Hrs; [|done].
    unfold handle in Hbatch.
    destruct e; injection Hbatch as <- <-;
      try (left; split; [done | by right]).
    right. split; [done|]. right. by exists ts.
Qed.

Lemma prediction_error_details_witness :
  (500 = 500 /\
   ("Error interno al procesar la predicción en lote"%string
    = "Error interno al procesar la predicción"%string
    \/ "Error interno al procesar la predicción en lote"%string
       = "Error interno al procesar la predicción en lote"%string))
  \/ (500 = 400 /\
      ((exists t, TextInput (text_of "hola") = Ok t /\
                  predict short_loaded t
                  = Err (ValueError
                           "Error interno al procesar la predicción en lote"))
       \/ (exists ts, BatchTextInput [text_of "hola"; text_of "muy"] = Ok ts /\
             Classifier.predict_batch short_loaded ts
             = Err (ValueError
                      "Error interno al procesar la predicción en lote")))).
Proof.
  apply (prediction_error_details short_loaded (text_of "hola")
           [text_of "hola"; text_of "muy"] 500
           "Error interno al procesar la predicción en lote").
  right. vm_compute. reflexivity.
Defined.

End Answers.
